(** * node-auto-bot: a shallow embedding of the provisioning core

    The development follows the three source files:
    - [marzban_node_api.py]: the control-plane client [NodeSetup];
    - [utils.py]: [ServerManager] (remote provisioning) and [get_geo_ip];
    - [bot.py]: the input validation and the handlers of the node-creation
      dialog.

    Network peers (the control plane, the geo providers, the remote host)
    are oracles passed as arguments; every request and every remote command
    is recorded in a log that is threaded through the calls, so that
    statements about what was sent, and in which order, are statements
    about that log. *)

From Stdlib Require Import ZArith String Ascii List Bool Lia DecimalString.
From stdpp Require Import gmap strings.
Import ListNotations.

Open Scope string_scope.
Open Scope list_scope.
Open Scope Z_scope.

Set Warnings "-register-all".

(** ** Python values and built-ins used by the code *)

Module Py.

(** A decoded JSON body or any other run-time value that reaches an
    f-string.  Strings and dictionaries are kept structurally; every value
    that is not a string carries the text [str()] gives for it. *)
Inductive pyval : Type :=
| PyStr (s : string)
| PyDict (items : list (string * pyval)) (shown : string)
| PyOther (shown : string).

(** [f"{v}"] *)
Definition format (v : pyval) : string :=
  match v with
  | PyStr s => s
  | PyDict _ shown => shown
  | PyOther shown => shown
  end.

Fixpoint assoc (k : string) (items : list (string * pyval)) : option pyval :=
  match items with
  | [] => None
  | (k', v) :: rest => if String.eqb k k' then Some v else assoc k rest
  end.

(** [v[k]]; [None] stands for the [KeyError] or [TypeError] raised. *)
Definition getitem (v : pyval) (k : string) : option pyval :=
  match v with
  | PyDict items _ => assoc k items
  | _ => None
  end.

Definition nl : ascii := "010"%char.
Definition dq : ascii := "034"%char.

(** [s.split(sep)] for a one-character separator. *)
Fixpoint split (sep : ascii) (s : string) : list string :=
  match s with
  | EmptyString => [""]
  | String c rest =>
      if Ascii.eqb c sep then "" :: split sep rest
      else match split sep rest with
           | piece :: pieces => String c piece :: pieces
           | [] => [String c ""]
           end
  end.

(** [sep not in s] *)
Fixpoint free_of (sep : ascii) (s : string) : bool :=
  match s with
  | EmptyString => true
  | String c rest => negb (Ascii.eqb c sep) && free_of sep rest
  end.

(** A template written line by line: every line is followed by a newline. *)
Fixpoint unlines (ls : list string) : string :=
  match ls with
  | [] => ""
  | l :: rest => l +:+ String nl (unlines rest)
  end.

(** [s] between two double-quote characters. *)
Definition quoted (s : string) : string := String dq s +:+ String dq "".

(** [str(n)] for an [int]. *)
Definition str_int (n : Z) : string := NilZero.string_of_int (Z.to_int n).

(** What a call can end in: a value, an exception with its message, or the
    interpreter's recursion depth running out (Python raises
    [RecursionError] there). *)
Inductive outcome (A : Type) : Type :=
| Returned (a : A)
| Raised (msg : string)
| DepthExhausted.
Arguments Returned {A} a.
Arguments Raised {A} msg.
Arguments DepthExhausted {A}.

End Py.
Import Py.

(** ** HTTP exchanges *)

Module Http.

Inductive method : Type := GET | POST | DELETE.

Inductive field : Type := FStr (s : string) | FInt (n : Z).

(** [data=] of [requests]: a dictionary is sent form-encoded, the result
    of [json.dumps] as a JSON document. *)
Inductive payload : Type :=
| NoBody
| Form (fields : list (string * string))
| JsonDump (fields : list (string * field)).

Record request : Type := {
  meth : method;
  url : string;
  headers : list (string * string);
  body : payload;
  timeout : option Z
}.

Record response : Type := {
  status_code : Z;
  text : string;
  json : option pyval     (* [None]: [.json()] raises *)
}.

(** The peer either answers or the transport fails ([requests] raises). *)
Inductive reply : Type :=
| Answer (r : response)
| TransportError (msg : string).

Definition exchange : Type := request * reply.

(** A peer is a function of everything exchanged so far (oldest first) and
    of the request at hand. *)
Definition server : Type := list exchange -> request -> reply.

Definition send (srv : server) (wire : list exchange) (rq : request)
  : reply * list exchange :=
  let rp := srv wire rq in (rp, wire ++ [(rq, rp)]).

End Http.
Import Http.

(** ** marzban_node_api.py *)

Module MarzbanNodeApi.

Record NodeSetup : Type := {
  username : string;
  password : string;
  main_url : string;
  auth_url : string;
  node_url : string;
  nodes_url : string;
  token : pyval
}.

(** [NodeSetup.__init__] *)
Definition init (username password url : string) : NodeSetup :=
  {| username := username;
     password := password;
     main_url := url;
     auth_url := url +:+ "/api/admin/token";
     node_url := url +:+ "/api/node";
     nodes_url := url +:+ "/api/nodes";
     token := PyStr "" |}.

Definition set_token (self : NodeSetup) (t : pyval) : NodeSetup :=
  {| username := username self;
     password := password self;
     main_url := main_url self;
     auth_url := auth_url self;
     node_url := node_url self;
     nodes_url := nodes_url self;
     token := t |}.

(** The client object together with the wire log. *)
Definition state : Type := NodeSetup * list exchange.

Definition bearer (self : NodeSetup) : list (string * string) :=
  [("Authorization", "Bearer " +:+ format (token self))].

Definition auth_request (self : NodeSetup) : request :=
  {| meth := POST;
     url := auth_url self;
     headers := [];
     body := Form [("username", username self); ("password", password self)];
     timeout := Some 10 |}.

(** [NodeSetup._auth] *)
Definition _auth (srv : server) (st : state) : outcome unit * state :=
  let '(self, wire) := st in
  match send srv wire (auth_request self) with
  | (TransportError m, wire1) => (Raised m, (self, wire1))
  | (Answer auth, wire1) =>
      if status_code auth =? 200 then
        match json auth with
        | None => (Raised "JSONDecodeError", (self, wire1))
        | Some j =>
            match getitem j "access_token" with
            | None => (Raised "'access_token'", (self, wire1))
            | Some t => (Returned tt, (set_token self t, wire1))
            end
        end
      else (Raised ("Authentication failed: " +:+ text auth), (self, wire1))
  end.

(** [return r.json()] *)
Definition return_json (r : response) (st : state) : outcome pyval * state :=
  match json r with
  | Some j => (Returned j, st)
  | None => (Raised "JSONDecodeError", st)
  end.

Definition nodes_request (self : NodeSetup) : request :=
  {| meth := GET;
     url := nodes_url self;
     headers := bearer self;
     body := NoBody;
     timeout := Some 10 |}.

(** [NodeSetup.get_nodes]; [depth] is the recursion depth left. *)
Fixpoint get_nodes (depth : nat) (srv : server) (st : state)
  : outcome pyval * state :=
  match depth with
  | O => (DepthExhausted, st)
  | S depth' =>
      let '(self, wire) := st in
      match send srv wire (nodes_request self) with
      | (TransportError m, wire1) => (Raised m, (self, wire1))
      | (Answer nodes, wire1) =>
          if status_code nodes =? 200 then return_json nodes (self, wire1)
          else if status_code nodes =? 401 then
            match _auth srv (self, wire1) with
            | (Returned _, st2) => get_nodes depth' srv st2
            | (Raised m, st2) => (Raised m, st2)
            | (DepthExhausted, st2) => (DepthExhausted, st2)
            end
          else (Raised ("Nodes retrieval failed: " +:+ text nodes), (self, wire1))
      end
  end.

Definition node_data (name address : string) (port api_port : Z)
  (new_host : bool) : list (string * field) :=
  [("add_as_new_host", FStr (if new_host then "true" else "false"));
   ("address", FStr address);
   ("api_port", FInt api_port);
   ("name", FStr name);
   ("port", FInt port);
   ("usage_coefficient", FInt 1)].

Definition create_request (self : NodeSetup) (name address : string)
  (port api_port : Z) (new_host : bool) : request :=
  {| meth := POST;
     url := node_url self;
     headers := bearer self;
     body := JsonDump (node_data name address port api_port new_host);
     timeout := Some 10 |}.

(** [NodeSetup.create_node] *)
Fixpoint create_node (depth : nat) (srv : server) (st : state)
  (name address : string) (port api_port : Z) (new_host : bool)
  : outcome pyval * state :=
  match depth with
  | O => (DepthExhausted, st)
  | S depth' =>
      let '(self, wire) := st in
      match send srv wire (create_request self name address port api_port new_host) with
      | (TransportError m, wire1) => (Raised m, (self, wire1))
      | (Answer node, wire1) =>
          if status_code node =? 200 then return_json node (self, wire1)
          else if status_code node =? 401 then
            match _auth srv (self, wire1) with
            | (Returned _, st2) =>
                create_node depth' srv st2 name address port api_port new_host
            | (Raised m, st2) => (Raised m, st2)
            | (DepthExhausted, st2) => (DepthExhausted, st2)
            end
          else (Raised ("Node creation failed: " +:+ text node), (self, wire1))
      end
  end.

Definition delete_request (self : NodeSetup) (node_id : string) : request :=
  {| meth := DELETE;
     url := node_url self +:+ "/" +:+ node_id;
     headers := bearer self;
     body := NoBody;
     timeout := Some 10 |}.

(** [NodeSetup.delete_node] *)
Fixpoint delete_node (depth : nat) (srv : server) (st : state)
  (node_id : string) : outcome pyval * state :=
  match depth with
  | O => (DepthExhausted, st)
  | S depth' =>
      let '(self, wire) := st in
      match send srv wire (delete_request self node_id) with
      | (TransportError m, wire1) => (Raised m, (self, wire1))
      | (Answer node, wire1) =>
          if status_code node =? 200 then return_json node (self, wire1)
          else if status_code node =? 401 then
            match _auth srv (self, wire1) with
            | (Returned _, st2) => delete_node depth' srv st2 node_id
            | (Raised m, st2) => (Raised m, st2)
            | (DepthExhausted, st2) => (DepthExhausted, st2)
            end
          else (Raised ("Node deletion failed: " +:+ text node), (self, wire1))
      end
  end.

(** The three operations are one scheme applied to three requests: the
    request is rebuilt from the client on every attempt (it reads the
    current token), and the label prefixes the error of a rejected call. *)
Fixpoint call (mk : NodeSetup -> request) (label : string)
  (depth : nat) (srv : server) (st : state) : outcome pyval * state :=
  match depth with
  | O => (DepthExhausted, st)
  | S depth' =>
      let '(self, wire) := st in
      match send srv wire (mk self) with
      | (TransportError m, wire1) => (Raised m, (self, wire1))
      | (Answer r, wire1) =>
          if status_code r =? 200 then return_json r (self, wire1)
          else if status_code r =? 401 then
            match _auth srv (self, wire1) with
            | (Returned _, st2) => call mk label depth' srv st2
            | (Raised m, st2) => (Raised m, st2)
            | (DepthExhausted, st2) => (DepthExhausted, st2)
            end
          else (Raised (label +:+ text r), (self, wire1))
      end
  end.

(** Reading the wire log. *)
Definition is_auth (rq : request) : bool :=
  match body rq with Form _ => true | _ => false end.

Definition auths (wire : list exchange) : nat :=
  length (List.filter (fun e => is_auth (fst e)) wire).

Definition attempts (wire : list exchange) : nat :=
  length (List.filter (fun e => negb (is_auth (fst e))) wire).

Definition rejected (rp : reply) : bool :=
  match rp with
  | Answer r => status_code r =? 401
  | TransportError _ => false
  end.

(** A token request is in order only directly after an operation request
    that was answered 401. *)
Definition follows (prev : option exchange) (e : exchange) : bool :=
  if is_auth (fst e) then
    match prev with
    | Some p => negb (is_auth (fst p)) && rejected (snd p)
    | None => false
    end
  else true.

(** Every token request in the log is in order. *)
Fixpoint reactive (prev : option exchange) (wire : list exchange) : bool :=
  match wire with
  | [] => true
  | e :: rest => follows prev e && reactive (Some e) rest
  end.

Fixpoint last_or (prev : option exchange) (wire : list exchange) : option exchange :=
  match wire with
  | [] => prev
  | e :: rest => last_or (Some e) rest
  end.

(** The bound of one re-authentication and one retry per call, as a
    relation between the log before and after a call. *)
Definition at_most_one_reauth (before after : list exchange) : Prop :=
  (auths after <= auths before + 1)%nat /\
  (attempts after <= attempts before + 2)%nat.

(** An operation request: never the form-encoded token request. *)
Definition operation (mk : NodeSetup -> request) : Prop :=
  forall self, is_auth (mk self) = false.

(** Behaviours of the peer: the token endpoint grants the token [t]; the
    operation endpoint answers 401 while fewer than [k] operation requests
    are in the log; with [k] of them in the log it answers 200 with the
    body [v]. *)
Definition grants (srv : server) (t : pyval) : Prop :=
  forall wire rq, is_auth rq = true ->
    exists r j, srv wire rq = Answer r /\ status_code r = 200 /\
                json r = Some j /\ getitem j "access_token" = Some t.

Definition rejects_before (srv : server) (k : nat) : Prop :=
  forall wire rq, is_auth rq = false -> (attempts wire < k)%nat ->
    exists r, srv wire rq = Answer r /\ status_code r = 401.

Definition accepts_at (srv : server) (k : nat) (v : pyval) : Prop :=
  forall wire rq, is_auth rq = false -> attempts wire = k ->
    exists r, srv wire rq = Answer r /\ status_code r = 200 /\ json r = Some v.

End MarzbanNodeApi.

(** ** utils.py *)

Module Utils.

(** *** The remote host as [fabric] shows it *)

Record Result : Type := {
  failed : bool;
  stdout : string;
  stderr : string
}.

(** A command either completes with a [Result] or [run] raises. *)
Inductive run_outcome : Type :=
| Completed (r : Result)
| RunError (msg : string).

(** The remote host: whether it lets a session be established, and what a
    command run in a directory ([None]: the login directory) ends in. *)
Record remote : Type := {
  accepts_session : bool;
  exec : option string -> string -> run_outcome
}.

(** None of the [run] calls of utils.py passes [warn=True].  With the
    defaults of [fabric] a command that exits with a status other than 0
    then makes [run] raise [UnexpectedExit]: a [Result] that comes back
    never has [failed] set. *)
Definition raises_on_failure (rh : remote) : Prop :=
  forall cwd cmd r, exec rh cwd cmd = Completed r -> failed r = false.

Inductive event : Type :=
| Opened
| Ran (cwd : option string) (cmd : string)
| Closed
| TempWritten (content : string)
| TempUnlinked.

(** What exists outside the interpreter: whether the session is established
    and everything done so far, oldest first. *)
Record world : Type := {
  connected : bool;
  trace : list event
}.

Definition log (w : world) (e : event) : world :=
  {| connected := connected w; trace := trace w ++ [e] |}.

(** [Connection.run]: the session is established on first use. *)
Definition run (rh : remote) (w : world) (cwd : option string) (cmd : string)
  : run_outcome * world :=
  if connected w then (exec rh cwd cmd, log w (Ran cwd cmd))
  else if accepts_session rh then
    (exec rh cwd cmd,
     log {| connected := true; trace := trace w ++ [Opened] |} (Ran cwd cmd))
  else (RunError "Unable to connect", w).

(** [Connection.close] *)
Definition close (w : world) : world :=
  {| connected := false; trace := trace w ++ [Closed] |}.

Record Connection : Type := {
  conn_host : string;
  conn_user : string;
  conn_password : string
}.

(** *** ServerManager *)

Record ServerManager : Type := {
  host : string;
  password : string;
  connection : option Connection
}.

(** [ServerManager.__init__] *)
Definition init (host password : string) : ServerManager :=
  {| host := host; password := password; connection := None |}.

Definition state : Type := ServerManager * world.

(** [ServerManager.connect] *)
Definition connect (rh : remote) (st : state) : bool * state :=
  let '(self, w) := st in
  let self1 :=
    {| host := host self;
       password := password self;
       connection := Some {| conn_host := host self;
                             conn_user := "root";
                             conn_password := password self |} |} in
  match run rh w None "echo 'Connection test'" with
  | (Completed result, w1) => (negb (failed result), (self1, w1))
  | (RunError _, w1) => (false, (self1, w1))
  end.

(** The dictionary [setup_marzban_node] returns: [SetupFailed e] is
    [{"success": False, "error": e}], [SetupDone] the dictionary with
    ["success": True] and the four other keys. *)
Inductive setup_result : Type :=
| SetupFailed (error : string)
| SetupDone (message host : string) (service_port api_port : Z).

Definition success (r : setup_result) : bool :=
  match r with SetupFailed _ => false | SetupDone _ _ _ _ => true end.

(** The result is a failure whose error begins with the label of one of
    the three steps. *)
Definition labelled (r : setup_result) : bool :=
  match r with
  | SetupFailed error =>
      String.prefix "Failed to create script: " error
      || String.prefix "Failed to set permissions: " error
      || String.prefix "Setup failed: " error
  | SetupDone _ _ _ _ => false
  end.

(** The f-string of [_generate_setup_script], one element per line of the
    template; the certificate is substituted as it is, so that element can
    itself hold several lines. *)
Definition setup_script_lines (certificate : string) (service_port api_port : Z)
  : list string :=
    [ "#!/bin/bash";
      "set -e";
      "";
      "echo " +:+ quoted "=== Updating system...";
      "sudo apt update -y";
      "";
      "echo " +:+ quoted "=== Installing dependencies...";
      "sudo apt install socat git curl -y";
      "";
      "echo " +:+ quoted "=== Installing Docker...";
      "curl -fsSL https://get.docker.com | sh";
      "";
      "echo " +:+ quoted "=== Cloning Marzban Node repository...";
      "git clone https://github.com/Gozargah/Marzban-node || (cd Marzban-node && git pull)";
      "cd Marzban-node";
      "";
      "echo " +:+ quoted "=== Creating certificate directory...";
      "sudo mkdir -p /var/lib/marzban-node";
      "";
      "# Save certificate";
      "cat > /tmp/cert.pem << 'CERTEOF'";
      certificate;
      "CERTEOF";
      "";
      "sudo mv /tmp/cert.pem /var/lib/marzban-node/ssl_client_cert.pem";
      "sudo chmod 644 /var/lib/marzban-node/ssl_client_cert.pem";
      "";
      "# Create docker-compose.yml";
      "cat > docker-compose.yml << 'COMPOSEEOF'";
      "version: '3'";
      "services:";
      "  marzban-node:";
      "    image: gozargah/marzban-node:latest";
      "    restart: always";
      "    network_mode: host";
      "    volumes:";
      "      - /var/lib/marzban-node:/var/lib/marzban-node";
      "    environment:";
      "      SSL_CLIENT_CERT_FILE: " +:+ quoted "/var/lib/marzban-node/ssl_client_cert.pem";
      "      SERVICE_PROTOCOL: rest";
      "      SERVICE_PORT: " +:+ str_int service_port;
      "      XRAY_API_PORT: " +:+ str_int api_port;
      "COMPOSEEOF";
      "";
      "echo " +:+ quoted "=== Starting Marzban Node with Docker Compose...";
      "sudo docker compose up -d";
      "";
      "echo " +:+ quoted ("[SUCCESS] Node setup completed! Node should be available on port "
                          +:+ str_int service_port) ].

(** [ServerManager._generate_setup_script] *)
Definition _generate_setup_script (self : ServerManager) (certificate : string)
  (service_port api_port : Z) : string :=
  unlines (setup_script_lines certificate service_port api_port).

(** The template on either side of the certificate. *)
Definition before_certificate : list string :=
  firstn 21 (setup_script_lines "" 0 0).

Definition after_certificate (service_port api_port : Z) : list string :=
  skipn 22 (setup_script_lines "" service_port api_port).

(** The command that writes the script on the remote host. *)
Definition upload_command (script_content : string) : string :=
  "cat > setup_node.sh << 'SCRIPTEOF'" +:+ String nl script_content
  +:+ String nl "SCRIPTEOF".

(** The steps inside [with self.connection.cd("/tmp")].  The result is
    either what the block returns or the exception it lets escape. *)
Definition remote_steps (rh : remote) (self : ServerManager) (w : world)
  (script_content : string) (service_port api_port : Z)
  : (setup_result + string) * world :=
  match run rh w (Some "/tmp") (upload_command script_content) with
  | (RunError e, w1) => (inr e, w1)
  | (Completed result, w1) =>
      if failed result then
        (inl (SetupFailed ("Failed to create script: " +:+ stderr result)), w1)
      else
        match run rh w1 (Some "/tmp") "sudo chmod 755 setup_node.sh" with
        | (RunError e, w2) => (inr e, w2)
        | (Completed result, w2) =>
            if failed result then
              (inl (SetupFailed ("Failed to set permissions: " +:+ stderr result)), w2)
            else
              match run rh w2 (Some "/tmp") "sudo bash ./setup_node.sh" with
              | (RunError e, w3) => (inr e, w3)
              | (Completed result, w3) =>
                  if failed result then
                    (inl (SetupFailed ("Setup failed: " +:+ stderr result)), w3)
                  else
                    match run rh w3 (Some "/tmp") "sudo rm -f setup_node.sh" with
                    | (RunError e, w4) => (inr e, w4)
                    | (Completed _, w4) =>
                        (inl (SetupDone
                                ("Node setup completed successfully! Available on port "
                                 +:+ str_int service_port)
                                (host self) service_port api_port), w4)
                    end
              end
        end
  end.

(** The body of the outer [try]: the certificate, the script, the local
    temporary file, the remote steps and the inner [finally].  Creating,
    writing and unlinking the local file are taken to succeed here;
    [Upkeep.guarded_on] has the paths on which they raise. *)
Definition guarded (rh : remote) (env : gmap string string) (self : ServerManager)
  (w : world) (service_port api_port : Z) : (setup_result + string) * world :=
  match env !! "MARZBAN_NODE_CERT" with
  | None => (inl (SetupFailed "Certificate not found in environment"), w)
  | Some certificate =>
      if String.eqb certificate "" then
        (inl (SetupFailed "Certificate not found in environment"), w)
      else
        let script_content :=
          _generate_setup_script self certificate service_port api_port in
        let w0 := log w (TempWritten script_content) in
        let '(r, w1) := remote_steps rh self w0 script_content service_port api_port in
        (r, log w1 TempUnlinked)
  end.

(** [ServerManager.setup_marzban_node] *)
Definition setup_marzban_node (rh : remote) (env : gmap string string)
  (st : state) (service_port api_port : Z) : setup_result * state :=
  let protected (st1 : state) : setup_result * state :=
    let '(self, w) := st1 in
    let '(r, w1) := guarded rh env self w service_port api_port in
    let result :=
      match r with
      | inl d => d
      | inr e => SetupFailed ("Setup error: " +:+ e)
      end in
    (result, (self, match connection self with Some _ => close w1 | None => w1 end)) in
  match connection (fst st) with
  | None =>
      let '(ok, st1) := connect rh st in
      if ok then protected st1
      else (SetupFailed "Failed to connect to server", st1)
  | Some _ => protected st
  end.

(** *** get_geo_ip *)

(** The two providers, each asked with the address in the URL. *)
Record providers : Type := {
  ipapi : string -> reply;
  ipinfo : string -> reply
}.

Inductive lookup : Type := AskedIpapi (url : string) | AskedIpinfo (url : string).

(** [f"{response.json()[a]} ({response.json()[b]})"] *)
Definition city_and (response : response) (country_key : string) : outcome string :=
  match json response with
  | None => Raised "JSONDecodeError"
  | Some j =>
      match getitem j "city" with
      | None => Raised "'city'"
      | Some city =>
          match getitem j country_key with
          | None => Raised ("'" +:+ country_key +:+ "'")
          | Some country => Returned (format city +:+ " (" +:+ format country +:+ ")")
          end
      end
  end.

(** [get_geo_ip]; the second component lists the requests made, in order. *)
Definition get_geo_ip (geo : providers) (ip : string) : outcome string * list lookup :=
  let url1 := "https://ipapi.co/" +:+ ip +:+ "/json" in
  match ipapi geo url1 with
  | TransportError e => (Raised e, [AskedIpapi url1])
  | Answer response =>
      if status_code response =? 200 then
        (city_and response "country_name", [AskedIpapi url1])
      else if status_code response =? 429 then
        let url2 := "https://ipinfo.io/" +:+ ip +:+ "/json" in
        match ipinfo geo url2 with
        | TransportError e => (Raised e, [AskedIpapi url1; AskedIpinfo url2])
        | Answer response =>
            if status_code response =? 200 then
              (city_and response "country", [AskedIpapi url1; AskedIpinfo url2])
            else (Returned "Ghost", [AskedIpapi url1; AskedIpinfo url2])
        end
      else (Returned "Ghost", [AskedIpapi url1])
  end.

End Utils.

(** ** The remote shell, as far as here-documents go *)

Module Shell.

(** The lines of a here-document with a quoted delimiter: everything up to
    the first line that is exactly the delimiter, taken literally; the
    second component is what follows that line.  Input that ends before the
    delimiter ends the document. *)
Fixpoint heredoc (delim : string) (lines : list string) : list string * list string :=
  match lines with
  | [] => ([], [])
  | l :: rest =>
      if String.eqb l delim then ([], rest)
      else let '(doc, after) := heredoc delim rest in (l :: doc, after)
  end.

(** The lines of a text as the shell reads them: a final newline ends the
    last line, it does not start an empty one. *)
Fixpoint chop (pieces : list string) : list string :=
  match pieces with
  | [] => []
  | l :: rest =>
      match rest with
      | [] => if String.eqb l "" then [] else [l]
      | _ :: _ => l :: chop rest
      end
  end.

Definition lines (text : string) : list string := chop (split nl text).

(** The lines from the first occurrence of a command line on. *)
Fixpoint from_command (cmd : string) (lines : list string) : option (list string) :=
  match lines with
  | [] => None
  | l :: rest => if String.eqb l cmd then Some rest else from_command cmd rest
  end.

(** What [cat > file << 'DELIM'] writes when the shell reads [text]: the
    command line is looked up, the document that follows it goes to the
    file, each line with its newline. *)
Definition written (cmd delim : string) (text : string) : option string :=
  match from_command cmd (lines text) with
  | None => None
  | Some rest => Some (unlines (fst (heredoc delim rest)))
  end.

(** [setup_node.sh] after the upload command has run. *)
Definition uploaded_script (command : string) : option string :=
  written "cat > setup_node.sh << 'SCRIPTEOF'" "SCRIPTEOF" command.

(** [/tmp/cert.pem] after the uploaded script has run its [cat]. *)
Definition certificate_file (script_file : string) : option string :=
  written "cat > /tmp/cert.pem << 'CERTEOF'" "CERTEOF" script_file.

(** The certificate as it arrives on the host: through the upload command,
    then through the script. *)
Definition installed_certificate (certificate : string) (service_port api_port : Z)
  : option string :=
  match uploaded_script
          (Utils.upload_command
             (Utils._generate_setup_script (Utils.init "" "") certificate
                service_port api_port)) with
  | None => None
  | Some script_file => certificate_file script_file
  end.

(** The certificate reaches the host intact: the file holds its text and
    the newline that ends the last line of the document. *)
Definition arrives_intact (certificate : string) (service_port api_port : Z) : Prop :=
  installed_certificate certificate service_port api_port
  = Some (certificate +:+ String nl "").

End Shell.

(** ** bot.py *)

Module Bot.

(** *** Built-ins of the input handling *)

(** A [str] is held as its UTF-8 encoding.  A byte of the form 10xxxxxx
    continues the character begun before it. *)
Definition continues (c : ascii) : bool :=
  let n := nat_of_ascii c in ((128 <=? n) && (n <? 192))%nat.

(** The characters of a [str], each as its own encoding. *)
Fixpoint chars (s : string) : list string :=
  match s with
  | EmptyString => []
  | String c rest =>
      match chars rest with
      | String d more :: later =>
          if continues d then String c (String d more) :: later
          else String c "" :: String d more :: later
      | later => String c "" :: later
      end
  end.

(** [ord(ch)]: the code point of one character, from the payload bits of
    its first byte and the six of each byte that continues it. *)
Definition ord (ch : string) : Z :=
  match ch with
  | EmptyString => 0
  | String c rest =>
      let n := Z.of_nat (nat_of_ascii c) in
      let first :=
        if n <? 128 then n
        else if n <? 224 then n - 192
        else if n <? 240 then n - 224
        else n - 240 in
      fold_left (fun acc d => 64 * acc + (Z.of_nat (nat_of_ascii d) - 128))
                (list_ascii_of_string rest) first
  end.

(** The characters [str.strip] removes: those of [str.isspace], by code
    point. *)
Definition isspace (cp : Z) : bool :=
  ((9 <=? cp) && (cp <=? 13))         (* tab, line feed ... carriage return *)
  || ((28 <=? cp) && (cp <=? 32))     (* the four separators, the space *)
  || (cp =? 133)                      (* U+0085 *)
  || (cp =? 160)                      (* U+00A0 *)
  || (cp =? 5760)                     (* U+1680 *)
  || ((8192 <=? cp) && (cp <=? 8202)) (* U+2000 ... U+200A *)
  || (cp =? 8232) || (cp =? 8233)     (* U+2028, U+2029 *)
  || (cp =? 8239)                     (* U+202F *)
  || (cp =? 8287)                     (* U+205F *)
  || (cp =? 12288).                   (* U+3000 *)

Fixpoint lstrip (l : list string) : list string :=
  match l with
  | [] => []
  | ch :: rest => if isspace (ord ch) then lstrip rest else l
  end.

(** [s.strip()] *)
Definition strip (s : string) : string :=
  String.concat "" (rev (lstrip (rev (lstrip (chars s))))).

(** The white space the parser of [int] skips in ASCII text. *)
Definition blank (c : ascii) : bool :=
  let n := nat_of_ascii c in
  ((9 <=? n) && (n <=? 13) || (n =? 32))%nat.

Fixpoint skip_blanks (s : string) : string :=
  match s with
  | EmptyString => ""
  | String c rest => if blank c then skip_blanks rest else s
  end.

Fixpoint drop_last_blanks (s : string) : string :=
  match s with
  | EmptyString => ""
  | String c rest =>
      match drop_last_blanks rest with
      | EmptyString => if blank c then "" else String c ""
      | kept => String c kept
      end
  end.

Definition digit (c : ascii) : option Z :=
  let n := nat_of_ascii c in
  if ((48 <=? n) && (n <=? 57))%nat then Some (Z.of_nat n - 48) else None.

(** Decimal digits, single underscores allowed between two digits. *)
Fixpoint digits (after_digit : bool) (acc : Z) (s : string) : option Z :=
  match s with
  | EmptyString => if after_digit then Some acc else None
  | String c rest =>
      if Ascii.eqb c "_" then
        if after_digit then digits false acc rest else None
      else
        match digit c with
        | Some d => digits true (10 * acc + d) rest
        | None => None
        end
  end.

(** The texts on which [int] is spelled out here: at most 640 characters,
    which no configured limit on the number of digits is below, all of
    them ASCII, none of them one of the four separators U+001C to
    U+001F. *)
Definition plain (s : string) : bool :=
  (String.length s <=? 640)%nat
  && forallb (fun c => let n := nat_of_ascii c in
                       ((n <? 128) && negb ((28 <=? n) && (n <=? 31)))%nat)
             (list_ascii_of_string s).

(** [int(s)] on a [plain] text: blanks at either end, a sign, digits;
    [None] stands for the [ValueError]. *)
Definition decimal (s : string) : option Z :=
  match drop_last_blanks (skip_blanks s) with
  | String "-" rest => option_map Z.opp (digits false 0 rest)
  | String "+" rest => digits false 0 rest
  | body => digits false 0 body
  end.

Fixpoint starts_with (prefix s : string) : bool :=
  match prefix, s with
  | EmptyString, _ => true
  | String a p, String b r => Ascii.eqb a b && starts_with p r
  | String _ _, EmptyString => false
  end.

(** [s.replace(old, "")] for a non-empty [old]: [skip] characters of a
    match are still to be dropped. *)
Fixpoint remove_all (old : string) (skip : nat) (s : string) : string :=
  match s with
  | EmptyString => ""
  | String c rest =>
      match skip with
      | S k => remove_all old k rest
      | O =>
          if starts_with old s then remove_all old (String.length old - 1) rest
          else String c (remove_all old O rest)
      end
  end.

(** *** Addresses *)

(** What [ipaddress.ip_address] returns: the version and the address as an
    integer. *)
Inductive address : Type :=
| IPv4Address (packed : Z)
| IPv6Address (packed : Z).

(** [is_loopback]: 127.0.0.0/8, respectively ::1. *)
Definition is_loopback (a : address) : bool :=
  match a with
  | IPv4Address n => n / 16777216 =? 127
  | IPv6Address n => n =? 1
  end.

(** [is_unspecified]: 0.0.0.0, respectively ::. *)
Definition is_unspecified (a : address) : bool :=
  match a with
  | IPv4Address n => n =? 0
  | IPv6Address n => n =? 0
  end.

(** *** The peers of the bot *)

(** Everything the handlers reach outside the process, and the library
    functions whose code is not part of the repository. *)
Record peers : Type := {
  ip_address : string -> option address;   (* [None]: [ValueError] *)
  port_open : string -> Z -> bool;         (* [check_port_availability] *)
  int_beyond : string -> option Z;         (* [int] on a text that is not
                                              [plain]; [None]: [ValueError] *)
  value_error : string -> string;          (* [str(e)] of that [ValueError] *)
  environ : gmap string string;
  node_host : Utils.remote;
  geo : Utils.providers;
  panel : server;
  depth : nat;                             (* recursion depth available *)
  now : string                             (* the formatted current time *)
}.

(** [int(s)]; [None] stands for the [ValueError]. *)
Definition int (E : peers) (s : string) : option Z :=
  if plain s then decimal s else int_beyond E s.

(** *** The dialog *)

Inductive dialog_state : Type :=
| waiting_for_ip
| waiting_for_password
| waiting_for_ports.

(** The [FSMContext] of one chat. *)
Record session : Type := {
  fsm_state : option dialog_state;
  data : gmap string string
}.

Definition set_state (ss : session) (s : dialog_state) : session :=
  {| fsm_state := Some s; data := data ss |}.

Definition update_data (ss : session) (k v : string) : session :=
  {| fsm_state := fsm_state ss; data := <[k := v]> (data ss) |}.

(** [state.clear()] *)
Definition clear (ss : session) : session :=
  {| fsm_state := None; data := ∅ |}.

Inductive keyboard : Type :=
| no_keyboard
| main_keyboard
| cancel_keyboard
| ports_keyboard.

(** What a handler does that can be observed, in order. *)
Inductive effect : Type :=
| Say (text : string) (reply_markup : keyboard)
| Edit (text : string)
| LogInfo (text : string)
| LogError (text : string)
| CallbackAnswered
| Asked (what : Utils.lookup)
| Provisioned (host : string) (result : Utils.setup_result).

(** The process-wide objects: the client [marzban_api] with its wire log,
    and the host being provisioned. *)
Record world : Type := {
  marzban_api : MarzbanNodeApi.state;
  site : Utils.world
}.

(** A handler run: the exception that escaped it, if any, the session and
    the world it leaves, and what it did. *)
Record reaction : Type := {
  escaped : option string;
  session_after : session;
  world_after : world;
  did : list effect
}.

(** [log_admin_action] *)
Definition log_admin_action (user_id : Z) (action details : string) : effect :=
  LogInfo ("ADMIN_ACTION: User " +:+ str_int user_id +:+ " - " +:+ action +:+ " - " +:+ details).

(** [validate_ip_address] *)
Definition validate_ip_address (E : peers) (ip : string) : bool :=
  match ip_address E ip with
  | Some _ => true
  | None => false
  end.

Definition is_localhost_literal (ip : string) : bool :=
  String.eqb ip "127.0.0.1" || String.eqb ip "localhost" || String.eqb ip "::1".

(** [process_ip].  The text of the message is a [str]; sending a message
    does not fail; [check_port_availability] catches its own exceptions and
    the parser raises nothing but [ValueError], so the [except Exception]
    clause has nothing to catch. *)
Definition process_ip (E : peers) (user_id : Z) (ss : session) (w : world)
  (text : string) : reaction :=
  let ip := strip text in
  if negb (validate_ip_address E ip) then
    {| escaped := None; session_after := ss; world_after := w;
       did := [Say ("❌ Invalid IP address format. Please try again." +:+ String nl (String nl ("💡 Example: 192.168.1.100"))) cancel_keyboard] |}
  else if is_localhost_literal ip then
    {| escaped := None; session_after := ss; world_after := w;
       did := [Say ("❌ Cannot use localhost. Enter the external IP address of the server.") cancel_keyboard] |}
  else
    let probe :=
      if negb (port_open E ip 22) then [Say ("⚠️ Attention: SSH port (22) is not available. Ensure the server is running and accessible.") cancel_keyboard] else [] in
    {| escaped := None;
       session_after := set_state (update_data ss "ip" ip) waiting_for_password;
       world_after := w;
       did := [Say ("🔍 Checking server availability...") no_keyboard] ++ probe
              ++ [log_admin_action user_id "IP_ENTERED" ("IP: " +:+ ip);
                  Say ("Enter the server password:" +:+ String nl (String nl ("🔒 The password will only be used for configuration and will not be saved"))) cancel_keyboard] |}.

(** The [except Exception] and [finally] clauses of [process_node_setup].
    Telegram is taken to accept every message and every edit: an
    [edit_text] or [answer] that raises, as one does on a text longer than
    a message may be, is not modelled, here and in the other handlers. *)
Definition setup_error (user_id : Z) (ss : session) (w : world)
  (done : list effect) (e : string) : reaction :=
  {| escaped := None;
     session_after := clear ss;
     world_after := w;
     did := done
            ++ [log_admin_action user_id "NODE_SETUP_ERROR" ("Error: " +:+ e);
                LogError ("Node setup error for user " +:+ str_int user_id +:+ ": " +:+ e);
                Edit ("❌ Error: " +:+ e);
                Say ("Select action:") main_keyboard] |}.

(** [str(e)] of the [RecursionError]. *)
Definition recursion_error : string := "maximum recursion depth exceeded".

(** [process_node_setup] *)
Definition process_node_setup (E : peers) (user_id : Z) (ss : session) (w : world)
  (service_port api_port : Z) : reaction :=
  match data ss !! "ip" with
  | None =>
      {| escaped := Some "'ip'"; session_after := ss; world_after := w; did := [] |}
  | Some ip =>
      let d0 :=
        [log_admin_action user_id "NODE_SETUP_STARTED" ("IP: " +:+ ip +:+ ", Ports: " +:+ str_int service_port +:+ ":" +:+ str_int api_port);
         Say ("🔄 Starting node setup...") no_keyboard;
         Edit ("📡 Connecting to the server...")] in
      match data ss !! "password" with
      | None => setup_error user_id ss w d0 "'password'"
      | Some password =>
          let d1 := d0 ++ [Edit ("⚙️ Configuring the server...")] in
          let '(setup_result, (_, site1)) :=
            Utils.setup_marzban_node (node_host E) (environ E)
              (Utils.init ip password, site w) service_port api_port in
          let w1 := {| marzban_api := marzban_api w; site := site1 |} in
          let d2 := d1 ++ [Provisioned ip setup_result] in
          match setup_result with
          | Utils.SetupFailed error =>
              {| escaped := None;
                 session_after := clear (clear ss);
                 world_after := w1;
                 did := d2
                        ++ [log_admin_action user_id "NODE_SETUP_FAILED" ("Server setup failed: " +:+ error);
                            Edit ("❌ Server setup failed: " +:+ error);
                            Say ("Select action:") main_keyboard;
                            Say ("Select action:") main_keyboard] |}
          | Utils.SetupDone _ _ _ _ =>
              let d3 := d2 ++ [Edit ("✅ Server configured successfully!"); Edit ("🔗 Adding node to Marzban...")] in
              let '(named, asked) := Utils.get_geo_ip (geo E) ip in
              let d4 := d3 ++ map Asked asked in
              match named with
              | Raised e => setup_error user_id ss w1 d4 e
              | DepthExhausted => setup_error user_id ss w1 d4 recursion_error
              | Returned node_name =>
                  let '(created, api1) :=
                    MarzbanNodeApi.create_node (depth E) (panel E) (marzban_api w1)
                      node_name ip service_port api_port true in
                  let w2 := {| marzban_api := api1; site := site1 |} in
                  match created with
                  | Raised e => setup_error user_id ss w2 d4 e
                  | DepthExhausted => setup_error user_id ss w2 d4 recursion_error
                  | Returned _ =>
                      {| escaped := None;
                         session_after := clear ss;
                         world_after := w2;
                         did := d4
                                ++ [log_admin_action user_id "NODE_SETUP_COMPLETED"
                                      ("Node: " +:+ node_name +:+ ", IP: " +:+ ip);
                                    Edit ("✅ Node added successfully!" +:+ String nl (String nl ("📋 Node information:" +:+ String nl ("• Name: " +:+ node_name +:+ String nl ("• Address: " +:+ ip +:+ String nl ("• Port: " +:+ str_int service_port +:+ String nl ("• API port: " +:+ str_int api_port +:+ String nl ("• Creation time: " +:+ now E))))))));
                                    Say ("Select action:") main_keyboard] |}
                  end
              end
          end
      end
  end.

(** The first lines of [process_ports_manual]: the two ports, or the
    message of the [ValueError]. *)
Definition parse_ports (E : peers) (text : string) : (Z * Z) + string :=
  match split ":" text with
  | [first; second] =>
      match int E (strip first) with
      | None => inr (value_error E (strip first))
      | Some service_port =>
          match int E (strip second) with
          | None => inr (value_error E (strip second))
          | Some api_port => inl (service_port, api_port)
          end
      end
  | _ => inr "Invalid format. Use: service_port:api_port"
  end.

(** [process_ports_manual] *)
Definition process_ports_manual (E : peers) (user_id : Z) (ss : session) (w : world)
  (text : string) : reaction :=
  match parse_ports E text with
  | inl (service_port, api_port) =>
      process_node_setup E user_id ss w service_port api_port
  | inr e =>
      {| escaped := None; session_after := ss; world_after := w;
         did := [Say ("❌ Invalid port format: " +:+ e +:+ ". Please try again." +:+ String nl (String nl ("💡 Example: 8443:8880"))) cancel_keyboard] |}
  end.

(** [process_ports_selection]; [callback_data] starts with ["ports_"]. *)
Definition process_ports_selection (E : peers) (user_id : Z) (ss : session)
  (w : world) (callback_data : string) : reaction :=
  if String.eqb callback_data "ports_manual" then
    {| escaped := None;
       session_after := set_state ss waiting_for_ports;
       world_after := w;
       did := [CallbackAnswered; Say ("Enter the ports in the format service_port:api_port" +:+ String nl (String nl ("💡 Example: 8443:8880"))) cancel_keyboard] |}
  else
    let crash (e : string) :=
      {| escaped := Some e; session_after := ss; world_after := w;
         did := [CallbackAnswered] |} in
    match split "_" (remove_all "ports_" O callback_data) with
    | first :: second :: _ =>
        match int E first with
        | None => crash (value_error E first)
        | Some service_port =>
            match int E second with
            | None => crash (value_error E second)
            | Some api_port =>
                let r := process_node_setup E user_id ss w service_port api_port in
                {| escaped := escaped r;
                   session_after := session_after r;
                   world_after := world_after r;
                   did := CallbackAnswered :: did r |}
            end
        end
    | _ => crash "list index out of range"
    end.

(** Both numbers of a pair are TCP ports. *)
Definition port_pair (ports : Z * Z) : Prop :=
  0 <= fst ports <= 65535 /\ 0 <= snd ports <= 65535.

(** The handler moved the dialog on from the address to the password. *)
Definition accepted (r : reaction) : Prop :=
  fsm_state (session_after r) = Some waiting_for_password.

(** Every address that parses and is a loopback or the unspecified address
    is turned away: the session stays as it was. *)
Definition rejects_loopback (E : peers) : Prop :=
  forall user_id ss w text a,
    ip_address E (strip text) = Some a ->
    is_loopback a || is_unspecified a = true ->
    session_after (process_ip E user_id ss w text) = ss.

(** Every pair the manual entry accepts is a pair of TCP ports. *)
Definition ports_in_range (E : peers) : Prop :=
  forall text ports, parse_ports E text = inl ports -> port_pair ports.

End Bot.

(** ** Concrete peers and inputs, for the examples *)

Module Fixtures.
Import MarzbanNodeApi.

(** The token endpoint always grants the token ["t"]; an operation is
    answered 401 while fewer than [n] operation requests have been seen,
    and 200 afterwards. *)

Definition granted : response :=
  {| status_code := 200;
     text := "{}";
     json := Some (PyDict [("access_token", PyStr "t")] "{}") |}.

Definition unauthorized : response :=
  {| status_code := 401; text := "Unauthorized"; json := None |}.

Definition listing : response :=
  {| status_code := 200; text := "[]"; json := Some (PyOther "[]") |}.

Definition rejecting (n : nat) : server :=
  fun wire rq =>
    if is_auth rq then Answer granted
    else if (attempts wire <? n)%nat then Answer unauthorized
    else Answer listing.

Definition fresh : state := (init "admin" "secret" "https://panel.example", []).

(** A certificate one of whose lines is the delimiter of the certificate
    document. *)
Definition cut_certificate : string :=
  unlines ["-----BEGIN CERTIFICATE-----"; "CERTEOF"] +:+ "-----END CERTIFICATE-----".

Definition plain_certificate : string :=
  unlines ["-----BEGIN CERTIFICATE-----"; "MIIB"] +:+ "-----END CERTIFICATE-----".

(** Remote hosts. *)
Definition done : Utils.Result :=
  {| Utils.failed := false; Utils.stdout := ""; Utils.stderr := "" |}.

Definition broken (err : string) : Utils.Result :=
  {| Utils.failed := true; Utils.stdout := ""; Utils.stderr := err |}.

(** Every command succeeds. *)
Definition obliging : Utils.remote :=
  {| Utils.accepts_session := true; Utils.exec := fun _ _ => Utils.Completed done |}.

(** The session is established, every command then fails. *)
Definition failing : Utils.remote :=
  {| Utils.accepts_session := true;
     Utils.exec := fun _ _ => Utils.Completed (broken "Permission denied") |}.

(** Everything works but the script itself. *)
Definition script_fails : Utils.remote :=
  {| Utils.accepts_session := true;
     Utils.exec := fun _ cmd =>
       if String.eqb cmd "sudo bash ./setup_node.sh"
       then Utils.Completed (broken "E: Unable to locate package socat")
       else Utils.Completed done |}.

Definition offline : Utils.world := {| Utils.connected := false; Utils.trace := [] |}.

Definition with_certificate : gmap string string :=
  <["MARZBAN_NODE_CERT" := plain_certificate]> ∅.

(** The primary geo provider is rate-limiting, the fallback answers. *)
Definition rate_limited : response :=
  {| status_code := 429; text := "Too Many Requests"; json := None |}.

Definition frankfurt : response :=
  {| status_code := 200;
     text := "{}";
     json := Some (PyDict [("city", PyStr "Frankfurt am Main"); ("country", PyStr "DE")]
                      "{}") |}.

Definition throttled : Utils.providers :=
  {| Utils.ipapi := fun _ => Answer rate_limited;
     Utils.ipinfo := fun _ => Answer frankfurt |}.

(** A host that lets nobody in. *)
Definition refusing : Utils.remote :=
  {| Utils.accepts_session := false;
     Utils.exec := fun _ _ => Utils.RunError "Unable to connect" |}.

(** A stand-in for [ipaddress.ip_address] that knows dotted quads only:
    four parts of one to three decimal digits, without a leading zero, none
    above 255. *)
Fixpoint plain_digits (acc : Z) (s : string) : option Z :=
  match s with
  | EmptyString => Some acc
  | String c rest =>
      match Bot.digit c with
      | Some d => plain_digits (10 * acc + d) rest
      | None => None
      end
  end.

Definition octet (s : string) : option Z :=
  if (String.length s =? 0)%nat || (3 <? String.length s)%nat then None
  else if negb (String.eqb s "0") && Bot.starts_with "0" s then None
  else match plain_digits 0 s with
       | Some n => if n <=? 255 then Some n else None
       | None => None
       end.

Definition dotted_quad (s : string) : option Bot.address :=
  match split "." s with
  | [a; b; c; d] =>
      match octet a, octet b, octet c, octet d with
      | Some a, Some b, Some c, Some d =>
          Some (Bot.IPv4Address (((a * 256 + b) * 256 + c) * 256 + d))
      | _, _, _, _ => None
      end
  | _ => None
  end.

Definition lab : Bot.peers :=
  {| Bot.ip_address := dotted_quad;
     Bot.port_open := fun _ _ => true;
     Bot.int_beyond := fun _ => None;
     Bot.value_error := fun s => "invalid literal for int() with base 10: '" +:+ s +:+ "'";
     Bot.environ := with_certificate;
     Bot.node_host := obliging;
     Bot.geo := throttled;
     Bot.panel := rejecting 1;
     Bot.depth := 10;
     Bot.now := "03.11.2026 17:29" |}.

(** The same, with a host that cannot be reached. *)
Definition unreachable : Bot.peers :=
  {| Bot.ip_address := dotted_quad;
     Bot.port_open := fun _ _ => false;
     Bot.int_beyond := fun _ => None;
     Bot.value_error := fun s => "invalid literal for int() with base 10: '" +:+ s +:+ "'";
     Bot.environ := with_certificate;
     Bot.node_host := refusing;
     Bot.geo := throttled;
     Bot.panel := rejecting 1;
     Bot.depth := 10;
     Bot.now := "03.11.2026 17:29" |}.

Definition asked_host : Bot.session :=
  {| Bot.fsm_state := Some Bot.waiting_for_ip; Bot.data := ∅ |}.

Definition asked_ports : Bot.session :=
  {| Bot.fsm_state := Some Bot.waiting_for_ports;
     Bot.data := <["password" := "p@ss"]> (<["ip" := "203.0.113.5"]> ∅) |}.

Definition idle : Bot.world :=
  {| Bot.marzban_api := fresh; Bot.site := offline |}.

End Fixtures.

(** ** utils.py, the rest *)

Module Upkeep.
Import Utils.

(** [ServerManager.test_connection]: without a connection object the
    attribute access fails and the bare [except] answers [False]. *)
Definition test_connection (rh : remote) (st : state) : bool * state :=
  let '(self, w) := st in
  match connection self with
  | None => (false, st)
  | Some _ =>
      match run rh w None "echo 'test'" with
      | (Completed result, w1) => (negb (failed result), (self, w1))
      | (RunError _, w1) => (false, (self, w1))
      end
  end.

(** The four commands [setup_marzban_node] runs in [/tmp], in order. *)
Definition steps (script_content : string) : list string :=
  [upload_command script_content;
   "sudo chmod 755 setup_node.sh";
   "sudo bash ./setup_node.sh";
   "sudo rm -f setup_node.sh"].

(** [run] returned and the result is not [failed]. *)
Definition passes (o : run_outcome) : bool :=
  match o with
  | Completed r => negb (failed r)
  | RunError _ => false
  end.

(** *** The local temporary file *)

(** What the operations on the local temporary file end in:
    [NamedTemporaryFile(delete=False)], [write] with [flush], and
    [os.unlink].  [Some e] is the exception raised; a [write] comes with
    what reached the file, which stays there when it raises. *)
Record disk : Type := {
  create : option string;
  write : string -> string * option string;
  unlink : option string
}.

(** Every operation succeeds. *)
Definition sound (d : disk) : Prop :=
  create d = None /\ (forall content, write d content = (content, None)) /\
  unlink d = None.

(** The body of the outer [try] of [setup_marzban_node] on such a disk.
    The file is written before the inner [try], whose [finally] holds the
    only [os.unlink]. *)
Definition guarded_on (d : disk) (rh : remote) (env : gmap string string)
  (self : ServerManager) (w : world) (service_port api_port : Z)
  : (setup_result + string) * world :=
  match env !! "MARZBAN_NODE_CERT" with
  | None => (inl (SetupFailed "Certificate not found in environment"), w)
  | Some certificate =>
      if String.eqb certificate "" then
        (inl (SetupFailed "Certificate not found in environment"), w)
      else
        let script_content :=
          _generate_setup_script self certificate service_port api_port in
        match create d with
        | Some e => (inr e, w)
        | None =>
            let '(reached, raised) := write d script_content in
            let w0 := log w (TempWritten reached) in
            match raised with
            | Some e => (inr e, w0)
            | None =>
                let '(r, w1) :=
                  remote_steps rh self w0 script_content service_port api_port in
                match unlink d with
                | Some e => (inr e, w1)
                | None => (r, log w1 TempUnlinked)
                end
            end
        end
  end.

(** [ServerManager.setup_marzban_node] on such a disk. *)
Definition setup_marzban_node_on (d : disk) (rh : remote) (env : gmap string string)
  (st : state) (service_port api_port : Z) : setup_result * state :=
  let protected (st1 : state) : setup_result * state :=
    let '(self, w) := st1 in
    let '(r, w1) := guarded_on d rh env self w service_port api_port in
    let result :=
      match r with
      | inl done => done
      | inr e => SetupFailed ("Setup error: " +:+ e)
      end in
    (result, (self, match connection self with Some _ => close w1 | None => w1 end)) in
  match connection (fst st) with
  | None =>
      let '(ok, st1) := connect rh st in
      if ok then protected st1
      else (SetupFailed "Failed to connect to server", st1)
  | Some _ => protected st
  end.

(** Reading a trace: the local temporary files written and removed. *)
Definition written (tr : list event) : nat :=
  length (List.filter (fun e => match e with TempWritten _ => true | _ => false end) tr).

Definition unlinked (tr : list event) : nat :=
  length (List.filter (fun e => match e with TempUnlinked => true | _ => false end) tr).

End Upkeep.

(** ** bot.py, the rest of the dialog *)

Module Dialog.
Import Bot.

(** [len(s)] of a [str] held as UTF-8: the bytes that start a character. *)
Fixpoint len (s : string) : nat :=
  match s with
  | EmptyString => O
  | String c rest =>
      if (nat_of_ascii c / 64 =? 2)%nat then len rest else S (len rest)
  end.


(** [cancel_node_creation] *)
Definition cancel_node_creation (ss : session) (w : world) : reaction :=
  {| escaped := None;
     session_after := clear ss;
     world_after := w;
     did := [Say "❌ Node creation canceled." main_keyboard] |}.

(** [process_password] *)
Definition process_password (user_id : Z) (ss : session) (w : world)
  (text : string) : reaction :=
  let password := strip text in
  if String.eqb password "" then
    {| escaped := None; session_after := ss; world_after := w;
       did := [Say "❌ Password cannot be empty. Please try again." cancel_keyboard] |}
  else
    {| escaped := None;
       session_after := update_data ss "password" password;
       world_after := w;
       did := [log_admin_action user_id "PASSWORD_ENTERED"
                 ("Password length: " +:+ str_int (Z.of_nat (len password)));
               Say "Select the ports for the node or enter them manually:" ports_keyboard] |}.

(** The session [state.clear()] leaves. *)
Definition cleared : session := {| fsm_state := None; data := ∅ |}.

End Dialog.

(** ** More peers, for the examples *)

Module Scenarios.
Import MarzbanNodeApi.

Definition server_error : response :=
  {| status_code := 500; text := "Internal Server Error"; json := None |}.

(** The panel answers every request with a 500. *)
Definition erroring : server := fun _ _ => Answer server_error.

Definition denied : response :=
  {| status_code := 400; text := "Incorrect username or password"; json := None |}.

(** The panel rejects the token and the credentials. *)
Definition locked_out : server :=
  fun _ rq => if is_auth rq then Answer denied else Answer Fixtures.unauthorized.

(** The script is written, but [chmod] fails. *)
Definition chmod_fails : Utils.remote :=
  {| Utils.accepts_session := true;
     Utils.exec := fun _ cmd =>
       if String.eqb cmd "sudo chmod 755 setup_node.sh"
       then Utils.Completed (Fixtures.broken "chmod: Operation not permitted")
       else Utils.Completed Fixtures.done |}.

(** The script is written and made executable; run, it exits with status
    100 at its first [apt] line, and [run] raises. *)
Definition script_exits_100 : Utils.remote :=
  {| Utils.accepts_session := true;
     Utils.exec := fun _ cmd =>
       if String.eqb cmd "sudo bash ./setup_node.sh"
       then Utils.RunError "Encountered a bad command exit code!"
       else Utils.Completed Fixtures.done |}.

(** The local disk is full: the temporary file is created, nothing can be
    written to it. *)
Definition full : Upkeep.disk :=
  {| Upkeep.create := None;
     Upkeep.write := fun _ => ("", Some "[Errno 28] No space left on device");
     Upkeep.unlink := None |}.

(** The script runs, then the connection drops. *)
Definition drops_at_cleanup : Utils.remote :=
  {| Utils.accepts_session := true;
     Utils.exec := fun _ cmd =>
       if String.eqb cmd "sudo rm -f setup_node.sh"
       then Utils.RunError "Connection reset by peer"
       else Utils.Completed Fixtures.done |}.

Definition without_certificate : gmap string string := ∅.

Definition berlin : response :=
  {| status_code := 200;
     text := "{}";
     json := Some (PyDict [("city", PyStr "Berlin"); ("country_name", PyStr "Germany")]
                      "{}") |}.

(** The primary geo provider answers. *)
Definition answering : Utils.providers :=
  {| Utils.ipapi := fun _ => Answer berlin;
     Utils.ipinfo := fun _ => Answer Fixtures.frankfurt |}.

(** The primary geo provider answers 503. *)
Definition ghostly : Utils.providers :=
  {| Utils.ipapi := fun _ => Answer {| status_code := 503;
                                       text := "Service Unavailable";
                                       json := None |};
     Utils.ipinfo := fun _ => Answer Fixtures.frankfurt |}.

(** Both geo providers are down. *)
Definition dark : Utils.providers :=
  {| Utils.ipapi := fun _ => TransportError "Name or service not known";
     Utils.ipinfo := fun _ => TransportError "Name or service not known" |}.

(** The host can be provisioned, the geo providers cannot be reached. *)
Definition no_geo : Bot.peers :=
  {| Bot.ip_address := Fixtures.dotted_quad;
     Bot.port_open := fun _ _ => true;
     Bot.int_beyond := fun _ => None;
     Bot.value_error := fun s => "invalid literal for int() with base 10: '" +:+ s +:+ "'";
     Bot.environ := Fixtures.with_certificate;
     Bot.node_host := Fixtures.obliging;
     Bot.geo := dark;
     Bot.panel := Fixtures.rejecting 0;
     Bot.depth := 10;
     Bot.now := "03.11.2026 17:29" |}.

(** U+00A0, the no-break space. *)
Definition nbsp : string := String "194" (String "160" "").

(** A session that holds an address but no password. *)
Definition half_filled : Bot.session :=
  {| Bot.fsm_state := Some Bot.waiting_for_password;
     Bot.data := <["ip" := "203.0.113.5"]> ∅ |}.

End Scenarios.

(** * Properties *)

(** ** Strings and lines *)

Module TextFacts.

Lemma append_nil s : "" +:+ s = s.
Proof. reflexivity. Qed.

Lemma append_cons c a b : String c a +:+ b = String c (a +:+ b).
Proof. reflexivity. Qed.

Lemma append_assoc a b c : (a +:+ b) +:+ c = a +:+ (b +:+ c).
Proof.
  induction a as [|x a IH]; [reflexivity|]. now rewrite !append_cons, IH.
Qed.

Lemma split_nonempty sep s : split sep s <> [].
Proof.
  destruct s as [|c s]; cbn; [discriminate|].
  destruct (Ascii.eqb c sep); [discriminate|].
  destruct (split sep s); discriminate.
Qed.

Lemma split_cons sep c s :
  Ascii.eqb c sep = false ->
  exists piece pieces,
    split sep s = piece :: pieces /\ split sep (String c s) = String c piece :: pieces.
Proof.
  intros H. cbn [split]. rewrite H.
  destruct (split sep s) as [|piece pieces] eqn:E.
  - now destruct (split_nonempty sep s).
  - eauto.
Qed.

(** Splitting distributes over a separator in the middle. *)
Lemma split_app sep a b :
  split sep (a +:+ String sep b) = split sep a ++ split sep b.
Proof.
  induction a as [|c a IH]; [rewrite append_nil | rewrite append_cons]; cbn [split app].
  - now rewrite Ascii.eqb_refl.
  - rewrite IH. destruct (Ascii.eqb c sep); [reflexivity|].
    destruct (split sep a) as [|piece pieces] eqn:E; [|reflexivity].
    now destruct (split_nonempty sep a).
Qed.

Lemma split_free sep s : free_of sep s = true -> split sep s = [s].
Proof.
  induction s as [|c s IH]; cbn [split free_of]; [reflexivity|].
  intros H. apply andb_prop in H as [Hc Hs]. apply negb_true_iff in Hc.
  now rewrite Hc, (IH Hs).
Qed.

Lemma free_of_app sep a b :
  free_of sep (a +:+ b) = free_of sep a && free_of sep b.
Proof.
  induction a as [|c a IH]; [reflexivity|].
  rewrite append_cons. cbn [free_of]. now rewrite IH, andb_assoc.
Qed.

Lemma unlines_app xs ys : unlines (xs ++ ys) = unlines xs +:+ unlines ys.
Proof.
  induction xs as [|x xs IH]; [reflexivity|].
  cbn [app unlines]. now rewrite IH, append_assoc, append_cons.
Qed.

(** Joining the pieces again gives the text, with the newline that ends
    the last line. *)
Lemma unlines_split s : unlines (split nl s) = s +:+ String nl "".
Proof.
  induction s as [|c s IH]; [reflexivity|].
  cbn [split]. destruct (Ascii.eqb c nl) eqn:E.
  - apply Ascii.eqb_eq in E. subst c. cbn [unlines]. now rewrite IH.
  - destruct (split nl s) as [|piece pieces] eqn:Es.
    + now destruct (split_nonempty nl s).
    + cbn [unlines] in *. now rewrite !append_cons, IH.
Qed.

Lemma split_unlines ls :
  split nl (unlines ls) = concat (map (split nl) ls) ++ [""].
Proof.
  induction ls as [|l ls IH]; [reflexivity|].
  cbn [unlines map concat]. rewrite split_app, IH. now rewrite app_assoc.
Qed.

Lemma chop_snoc pieces : Shell.chop (pieces ++ [""]) = pieces.
Proof.
  induction pieces as [|l rest IH]; [reflexivity|].
  cbn [app Shell.chop]. destruct (rest ++ [""]) eqn:E.
  - now destruct rest.
  - now rewrite IH.
Qed.

Lemma lines_terminated s : Shell.lines (s +:+ String nl "") = split nl s.
Proof. unfold Shell.lines. rewrite split_app. cbn [split]. apply chop_snoc. Qed.

Lemma heredoc_found delim doc after :
  ~ In delim doc -> Shell.heredoc delim (doc ++ delim :: after) = (doc, after).
Proof.
  induction doc as [|l doc IH]; intros Hnot; cbn.
  - now rewrite String.eqb_refl.
  - destruct (String.eqb l delim) eqn:E.
    + apply String.eqb_eq in E. subst l. exfalso. apply Hnot. now left.
    + rewrite IH; [reflexivity|]. intros Hin. apply Hnot. now right.
Qed.

Lemma absent_in delim ls :
  existsb (String.eqb delim) ls = false -> ~ In delim ls.
Proof.
  intros H Hin. assert (E : existsb (String.eqb delim) ls = true).
  { apply existsb_exists. exists delim. split; [exact Hin | apply String.eqb_refl]. }
  congruence.
Qed.

Lemma uint_free d : free_of nl (NilEmpty.string_of_uint d) = true.
Proof. induction d; cbn; auto. Qed.

(** [str(n)] is digits and a sign. *)
Lemma str_int_free n : free_of nl (str_int n) = true.
Proof.
  unfold str_int, NilZero.string_of_int, NilZero.string_of_uint.
  destruct (Z.to_int n) as [d|d]; destruct d; cbn; try reflexivity; apply uint_free.
Qed.

End TextFacts.

(** ** Provisioning *)

Module ProvisionFacts.
Import Utils TextFacts.

Lemma script_shape certificate service_port api_port :
  setup_script_lines certificate service_port api_port
  = before_certificate ++ certificate :: after_certificate service_port api_port.
Proof. reflexivity. Qed.

Lemma single_lines ls :
  forallb (free_of nl) ls = true -> concat (map (split nl) ls) = ls.
Proof.
  induction ls as [|l ls IH]; [reflexivity|]. cbn [forallb map concat].
  intros H. apply andb_prop in H as [Hl Hls].
  now rewrite (split_free _ _ Hl), (IH Hls).
Qed.

Lemma before_free : forallb (free_of nl) before_certificate = true.
Proof. vm_compute. reflexivity. Qed.

Lemma after_free service_port api_port :
  forallb (free_of nl) (after_certificate service_port api_port) = true.
Proof.
  cbv [after_certificate skipn setup_script_lines quoted].
  cbn [forallb]. rewrite ?append_cons, ?append_nil.
  repeat (rewrite ?free_of_app, ?str_int_free; cbn [free_of]).
  reflexivity.
Qed.

(** The script, line by line. *)
Lemma script_pieces self certificate service_port api_port :
  split nl (_generate_setup_script self certificate service_port api_port)
  = before_certificate ++ split nl certificate
      ++ after_certificate service_port api_port ++ [""].
Proof.
  unfold _generate_setup_script. rewrite split_unlines.
  rewrite (script_shape certificate service_port api_port).
  generalize before_free (after_free service_port api_port).
  generalize before_certificate (after_certificate service_port api_port).
  intros pre post Hpre Hpost.
  rewrite map_app, concat_app. cbn [map concat].
  rewrite (single_lines _ Hpre), (single_lines _ Hpost).
  rewrite <- !app_assoc. reflexivity.
Qed.

Lemma before_no_delimiter :
  existsb (String.eqb "SCRIPTEOF") before_certificate = false.
Proof. vm_compute. reflexivity. Qed.

Lemma after_no_delimiter service_port api_port :
  existsb (String.eqb "SCRIPTEOF") (after_certificate service_port api_port ++ [""]) = false.
Proof.
  cbv [after_certificate skipn setup_script_lines quoted app].
  rewrite ?append_cons, ?append_nil. reflexivity.
Qed.

Lemma script_no_delimiter self certificate service_port api_port :
  ~ In "SCRIPTEOF" (split nl certificate) ->
  ~ In "SCRIPTEOF" (split nl (_generate_setup_script self certificate service_port api_port)).
Proof.
  intros Hc. rewrite script_pieces. intros Hin.
  apply in_app_or in Hin as [Hin|Hin].
  - exact (absent_in _ _ before_no_delimiter Hin).
  - apply in_app_or in Hin as [Hin|Hin]; [exact (Hc Hin)|].
    exact (absent_in _ _ (after_no_delimiter service_port api_port) Hin).
Qed.

(** The upload writes the script and the empty line that the newline
    before the delimiter adds. *)
Lemma upload_writes_script self certificate service_port api_port :
  ~ In "SCRIPTEOF" (split nl certificate) ->
  Shell.uploaded_script
    (upload_command (_generate_setup_script self certificate service_port api_port))
  = Some (_generate_setup_script self certificate service_port api_port +:+ String nl "").
Proof.
  intros Hc. unfold Shell.uploaded_script, Shell.written, upload_command.
  set (script := _generate_setup_script self certificate service_port api_port).
  change ("cat > setup_node.sh << 'SCRIPTEOF'" +:+ String nl script
          +:+ String nl "SCRIPTEOF")
    with ("cat > setup_node.sh << 'SCRIPTEOF'"
          +:+ String nl (script +:+ String nl "SCRIPTEOF")).
  assert (L : Shell.lines ("cat > setup_node.sh << 'SCRIPTEOF'"
                           +:+ String nl (script +:+ String nl "SCRIPTEOF"))
              = "cat > setup_node.sh << 'SCRIPTEOF'" :: split nl script ++ ["SCRIPTEOF"]).
  { unfold Shell.lines. rewrite split_app.
    change (split nl "cat > setup_node.sh << 'SCRIPTEOF'")
      with ["cat > setup_node.sh << 'SCRIPTEOF'"].
    rewrite split_app. change (split nl "SCRIPTEOF") with ["SCRIPTEOF"].
    cbn [app]. destruct (split nl script) as [|piece pieces] eqn:E.
    - now destruct (split_nonempty nl script).
    - cbn [Shell.chop app]. f_equal.
      clear E. revert piece. induction pieces as [|x xs IH]; intro piece; [reflexivity|].
      cbn [Shell.chop app]. f_equal. apply IH. }
  rewrite L. cbn [Shell.from_command]. rewrite String.eqb_refl.
  rewrite heredoc_found by (apply script_no_delimiter; exact Hc).
  cbn [fst]. now rewrite unlines_split.
Qed.

Lemma command_found :
  forall rest,
    Shell.from_command "cat > /tmp/cert.pem << 'CERTEOF'" (before_certificate ++ rest)
    = Some rest.
Proof. intro rest. vm_compute. reflexivity. Qed.

(** C2 (as the code has it).  The certificate is embedded between quoted
    here-document delimiters and is not escaped.  When none of its lines is
    exactly [CERTEOF] or [SCRIPTEOF], the upload command writes the script
    (and one empty line) to the host, and the script writes the certificate,
    followed by a newline, to the certificate file. *)
Theorem certificate_intact_without_delimiter_lines
  certificate service_port api_port :
  ~ In "CERTEOF" (split nl certificate) ->
  ~ In "SCRIPTEOF" (split nl certificate) ->
  (forall self,
      Shell.uploaded_script
        (upload_command (_generate_setup_script self certificate service_port api_port))
      = Some (_generate_setup_script self certificate service_port api_port
              +:+ String nl "")) /\
  Shell.arrives_intact certificate service_port api_port.
Proof.
  intros Hcert Hscript. split.
  { intros self. exact (upload_writes_script self _ _ _ Hscript). }
  unfold Shell.arrives_intact, Shell.installed_certificate.
  rewrite (upload_writes_script _ _ _ _ Hscript).
  unfold Shell.certificate_file, Shell.written.
  rewrite lines_terminated, script_pieces, command_found.
  change (after_certificate service_port api_port ++ [""])
    with ("CERTEOF" :: tl (after_certificate service_port api_port) ++ [""]).
  rewrite heredoc_found by exact Hcert.
  cbn [fst]. now rewrite unlines_split.
Qed.

Lemma certificate_intact_witness :
  Shell.arrives_intact Fixtures.plain_certificate 8443 8880.
Proof.
  apply (certificate_intact_without_delimiter_lines Fixtures.plain_certificate 8443 8880);
    apply absent_in; vm_compute; reflexivity.
Defined.

(** C2 (as stated) fails: a certificate with a line [CERTEOF] is cut at
    that line; what arrives is neither the certificate nor the certificate
    with a final newline. *)
Lemma certificate_cut_at_delimiter_line :
  Shell.installed_certificate Fixtures.cut_certificate 8443 8880
  = Some (unlines ["-----BEGIN CERTIFICATE-----"]) /\
  Shell.installed_certificate Fixtures.cut_certificate 8443 8880
  <> Some Fixtures.cut_certificate /\
  ~ Shell.arrives_intact Fixtures.cut_certificate 8443 8880.
Proof.
  unfold Shell.arrives_intact.
  assert (E : Shell.installed_certificate Fixtures.cut_certificate 8443 8880
              = Some (unlines ["-----BEGIN CERTIFICATE-----"])) by (vm_compute; reflexivity).
  rewrite E. repeat split; vm_compute; intro H; discriminate H.
Qed.


(** *** The script builder *)

(** C4.  The script depends on nothing but its three arguments (not on the
    object it is called on), and it is a fixed text with holes: five
    constant strings, with the certificate, unmodified, between the first
    two, and the decimal renderings of the service port, the API port and
    the service port again between the others. *)
Theorem script_is_fixed_template :
  (forall self self' certificate service_port api_port,
      _generate_setup_script self certificate service_port api_port
      = _generate_setup_script self' certificate service_port api_port) /\
  exists f0 f1 f2 f3 f4 : string,
    forall self certificate service_port api_port,
      _generate_setup_script self certificate service_port api_port
      = f0 +:+ certificate +:+ f1 +:+ str_int service_port +:+ f2
           +:+ str_int api_port +:+ f3 +:+ str_int service_port +:+ f4.
Proof.
  split; [reflexivity|].
  exists (unlines before_certificate).
  exists (String nl (unlines (firstn 18 (after_certificate 0 0)) +:+ "      SERVICE_PORT: ")).
  exists (String nl "      XRAY_API_PORT: ").
  exists (String nl (unlines (firstn 5 (skipn 20 (after_certificate 0 0)))
                     +:+ "echo "
                     +:+ String dq "[SUCCESS] Node setup completed! Node should be available on port ")).
  exists (String dq (String nl "")).
  intros self certificate service_port api_port.
  unfold _generate_setup_script.
  change (setup_script_lines certificate service_port api_port)
    with (before_certificate
          ++ certificate
          :: firstn 18 (after_certificate 0 0)
          ++ ["      SERVICE_PORT: " +:+ str_int service_port;
              "      XRAY_API_PORT: " +:+ str_int api_port]
          ++ firstn 5 (skipn 20 (after_certificate 0 0))
          ++ ["echo " +:+ quoted ("[SUCCESS] Node setup completed! Node should be available on port "
                                  +:+ str_int service_port)]).
  generalize (str_int service_port) (str_int api_port)
    before_certificate (firstn 18 (after_certificate 0 0))
    (firstn 5 (skipn 20 (after_certificate 0 0)))
    "      SERVICE_PORT: " "      XRAY_API_PORT: "
    "[SUCCESS] Node setup completed! Node should be available on port ".
  intros p1 p2 head middle tail l1 l2 l3. unfold quoted.
  repeat (progress (rewrite ?unlines_app, ?append_assoc, ?append_cons, ?append_nil;
                    cbn [unlines app])).
  reflexivity.
Qed.

(** *** Provisioning a node *)

Lemma connected_log w e : connected (log w e) = connected w.
Proof. reflexivity. Qed.

Lemma run_connected rh w cwd cmd :
  connected w = true -> run rh w cwd cmd = (exec rh cwd cmd, log w (Ran cwd cmd)).
Proof. intros H. unfold run. now rewrite H. Qed.

(** A connection test that passes leaves the session established. *)
Lemma connect_true rh self w :
  fst (connect rh (self, w)) = true ->
  exists w1,
    connect rh (self, w)
    = (true, ({| host := host self;
                 password := password self;
                 connection := Some {| conn_host := host self;
                                       conn_user := "root";
                                       conn_password := password self |} |}, w1)) /\
    connected w1 = true.
Proof.
  unfold connect, run.
  destruct (connected w) eqn:Ew.
  - destruct (exec rh None "echo 'Connection test'") as [r|m]; cbn [fst]; intros H;
      [|discriminate]. rewrite H. eexists; split; [reflexivity|]. exact Ew.
  - destruct (accepts_session rh).
    + destruct (exec rh None "echo 'Connection test'") as [r|m]; cbn [fst]; intros H;
        [|discriminate]. rewrite H. eexists; split; reflexivity.
    + cbn [fst]. discriminate.
Qed.

(** The branches on [result.failed] as they are written: were [run] to
    return a result with [failed] set, the first such step (write the
    script, chmod, run it) would end the call with its own label followed
    by the remote stderr.  This is what the labels are there for. *)
Lemma returned_failure_would_carry_label rh env h pw w service_port api_port :
  let res := fst (setup_marzban_node rh env (init h pw, w) service_port api_port) in
  let step := exec rh (Some "/tmp") in
  (fst (connect rh (init h pw, w)) = false ->
   res = SetupFailed "Failed to connect to server") /\
  (fst (connect rh (init h pw, w)) = true ->
   (env !! "MARZBAN_NODE_CERT" = None \/ env !! "MARZBAN_NODE_CERT" = Some "" ->
    res = SetupFailed "Certificate not found in environment") /\
   (forall certificate r1,
       env !! "MARZBAN_NODE_CERT" = Some certificate ->
       String.eqb certificate "" = false ->
       step (upload_command
               (_generate_setup_script (init h pw) certificate service_port api_port))
       = Completed r1 ->
       (failed r1 = true ->
        res = SetupFailed ("Failed to create script: " +:+ stderr r1)) /\
       (failed r1 = false ->
        forall r2, step "sudo chmod 755 setup_node.sh" = Completed r2 ->
          (failed r2 = true ->
           res = SetupFailed ("Failed to set permissions: " +:+ stderr r2)) /\
          (failed r2 = false ->
           forall r3, step "sudo bash ./setup_node.sh" = Completed r3 ->
             (failed r3 = true -> res = SetupFailed ("Setup failed: " +:+ stderr r3)) /\
             (failed r3 = false ->
              forall r4, step "sudo rm -f setup_node.sh" = Completed r4 ->
                res = SetupDone
                        ("Node setup completed successfully! Available on port "
                         +:+ str_int service_port)
                        h service_port api_port))))).
Proof.
  intros res step. subst res step. unfold setup_marzban_node. cbn [fst init connection].
  split.
  - intros Hc. destruct (connect rh _) as [ok st1]. cbn [fst] in Hc. now subst ok.
  - intros Hc. destruct (connect_true rh _ w Hc) as (w1 & Ec & Hw1).
    rewrite Ec. cbn [host password init connection]. unfold guarded. split.
    + intros [He|He]; rewrite He; reflexivity.
    + intros certificate r1 He Hne E1. rewrite He, Hne.
      change (_generate_setup_script _ certificate service_port api_port)
        with (_generate_setup_script (init h pw) certificate service_port api_port).
      generalize dependent (_generate_setup_script (init h pw) certificate
                              service_port api_port).
      intros script E1. unfold remote_steps.
      rewrite run_connected by (rewrite connected_log; exact Hw1).
      rewrite E1. split.
      { intros F1. rewrite F1. reflexivity. }
      intros F1 r2 E2. rewrite F1.
      rewrite run_connected by (rewrite !connected_log; exact Hw1).
      rewrite E2. split.
      { intros F2. rewrite F2. reflexivity. }
      intros F2 r3 E3. rewrite F2.
      rewrite run_connected by (rewrite !connected_log; exact Hw1).
      rewrite E3. split.
      { intros F3. rewrite F3. reflexivity. }
      intros F3 r4 E4. rewrite F3.
      rewrite run_connected by (rewrite !connected_log; exact Hw1).
      rewrite E4. reflexivity.
Qed.

Lemma returned_failure_example :
  fst (setup_marzban_node Fixtures.script_fails Fixtures.with_certificate
         (init "203.0.113.5" "p@ss", Fixtures.offline) 8443 8880)
  = SetupFailed "Setup failed: E: Unable to locate package socat".
Proof.
  destruct (returned_failure_would_carry_label Fixtures.script_fails
              Fixtures.with_certificate "203.0.113.5" "p@ss" Fixtures.offline 8443 8880)
    as [_ H].
  destruct (H ltac:(reflexivity)) as [_ H1].
  destruct (H1 Fixtures.plain_certificate Fixtures.done
              ltac:(vm_compute; reflexivity) ltac:(reflexivity) ltac:(reflexivity))
    as [_ H2].
  destruct (H2 ltac:(reflexivity) Fixtures.done ltac:(reflexivity)) as [_ H3].
  destruct (H3 ltac:(reflexivity) (Fixtures.broken "E: Unable to locate package socat")
              ltac:(reflexivity)) as [H4 _].
  exact (H4 ltac:(reflexivity)).
Defined.

(** With [raises_on_failure], a command that does not pass has raised. *)
Lemma not_passed_has_raised rh cwd cmd :
  raises_on_failure rh -> Upkeep.passes (exec rh cwd cmd) = false ->
  exists m, exec rh cwd cmd = RunError m.
Proof.
  intros R. destruct (exec rh cwd cmd) as [r|m] eqn:E; [|eauto].
  cbn. rewrite (R _ _ _ E). discriminate.
Qed.

Lemma remote_steps_unlabelled rh self w script service_port api_port :
  raises_on_failure rh -> connected w = true ->
  match fst (remote_steps rh self w script service_port api_port) with
  | inl done => labelled done = false
  | inr _ => True
  end.
Proof.
  intros R Hw. unfold remote_steps.
  rewrite run_connected by exact Hw.
  destruct (exec rh (Some "/tmp") (upload_command script)) as [r1|m1] eqn:E1; [|exact I].
  rewrite (R _ _ _ E1).
  rewrite run_connected by exact Hw.
  destruct (exec rh (Some "/tmp") "sudo chmod 755 setup_node.sh") as [r2|m2] eqn:E2;
    [|exact I].
  rewrite (R _ _ _ E2).
  rewrite run_connected by exact Hw.
  destruct (exec rh (Some "/tmp") "sudo bash ./setup_node.sh") as [r3|m3] eqn:E3;
    [|exact I].
  rewrite (R _ _ _ E3).
  rewrite run_connected by exact Hw.
  destruct (exec rh (Some "/tmp") "sudo rm -f setup_node.sh") as [r4|m4]; [|exact I].
  reflexivity.
Qed.

(** C3.  What [setup_marzban_node] returns on a manager just constructed,
    with [fabric] raising on a command that fails (no [run] passes
    [warn=True]).  A session that cannot be opened, or a connection test
    that does not pass, gives "Failed to connect to server"; past it a
    missing or empty certificate gives "Certificate not found in
    environment"; and when all four commands pass the result is the
    success record with the host and the two ports.  A step that fails,
    the steps before it having passed, does not end the call with its
    label and the remote stderr: [run] has raised, the branch that holds
    the label is not reached, and the result is "Setup error: " followed
    by the message of the exception.  No result ever begins with one of
    the three labels. *)
Theorem failing_step_loses_its_label rh env h pw w service_port api_port :
  raises_on_failure rh ->
  connected w = false ->
  let res := fst (setup_marzban_node rh env (init h pw, w) service_port api_port) in
  let test := exec rh None "echo 'Connection test'" in
  let step := exec rh (Some "/tmp") in
  labelled res = false /\
  (accepts_session rh = false \/ Upkeep.passes test = false ->
   res = SetupFailed "Failed to connect to server") /\
  (accepts_session rh = true -> Upkeep.passes test = true ->
   (env !! "MARZBAN_NODE_CERT" = None \/ env !! "MARZBAN_NODE_CERT" = Some "" ->
    res = SetupFailed "Certificate not found in environment") /\
   (forall certificate,
       env !! "MARZBAN_NODE_CERT" = Some certificate -> certificate <> "" ->
       let script :=
         _generate_setup_script (init h pw) certificate service_port api_port in
       (forall k, (k <= 3)%nat ->
          (forall j, (j < k)%nat ->
             Upkeep.passes (step (nth j (Upkeep.steps script) "")) = true) ->
          Upkeep.passes (step (nth k (Upkeep.steps script) "")) = false ->
          exists m, step (nth k (Upkeep.steps script) "") = RunError m /\
                    res = SetupFailed ("Setup error: " +:+ m)) /\
       ((forall j, (j <= 3)%nat ->
           Upkeep.passes (step (nth j (Upkeep.steps script) "")) = true) ->
        res = SetupDone
                ("Node setup completed successfully! Available on port "
                 +:+ str_int service_port)
                h service_port api_port))).
Proof.
  intros R Hw res test step. subst res test step.
  unfold setup_marzban_node. cbn [fst init connection]. unfold connect, run.
  rewrite Hw. destruct (accepts_session rh).
  2:{ cbn. split; [reflexivity|]. split; [reflexivity|]. discriminate. }
  destruct (exec rh None "echo 'Connection test'") as [r0|m0] eqn:E0.
  2:{ cbn. split; [reflexivity|]. split; [reflexivity|]. discriminate. }
  cbn [Upkeep.passes]. rewrite (R _ _ _ E0). cbn [negb connection host password init log].
  set (w1 := {| connected := true; trace := _ |}).
  assert (Hw1 : connected w1 = true) by reflexivity. clearbody w1.
  split; [|split; [intros [H|H]; discriminate H|intros _ _; split]].
  - (* never a label *)
    unfold guarded.
    destruct (env !! "MARZBAN_NODE_CERT") as [certificate|]; [|reflexivity].
    destruct (String.eqb certificate ""); [reflexivity|].
    match goal with
    | |- context [remote_steps ?a ?b ?c ?d ?e ?f] =>
        pose proof (remote_steps_unlabelled a b c d e f R Hw1) as U;
        destruct (remote_steps a b c d e f) as [[done|e0] w2]
    end; cbn [fst] in *; [exact U | reflexivity].
  - unfold guarded. intros [He|He]; rewrite He; reflexivity.
  - intros certificate He Hne.
    unfold guarded. rewrite He. apply String.eqb_neq in Hne. rewrite Hne.
    unfold _generate_setup_script.
    generalize (unlines (setup_script_lines certificate service_port api_port)).
    intros script. unfold remote_steps. split.
    + intros k Hk Hpass Hfail.
      destruct (not_passed_has_raised _ _ _ R Hfail) as [m Em]. exists m.
      split; [exact Em|].
      destruct k as [|[|[|[|k]]]]; [| | | |lia]; cbn [nth Upkeep.steps] in Em.
      * rewrite run_connected by exact Hw1. rewrite Em. reflexivity.
      * rewrite run_connected by exact Hw1.
        pose proof (Hpass 0%nat ltac:(lia)) as P0. cbn [nth Upkeep.steps] in P0.
        destruct (exec rh (Some "/tmp") (upload_command script)) as [r1|] eqn:E1;
          [|discriminate P0]. rewrite (R _ _ _ E1).
        rewrite run_connected by exact Hw1. rewrite Em. reflexivity.
      * rewrite run_connected by exact Hw1.
        pose proof (Hpass 0%nat ltac:(lia)) as P0. cbn [nth Upkeep.steps] in P0.
        destruct (exec rh (Some "/tmp") (upload_command script)) as [r1|] eqn:E1;
          [|discriminate P0]. rewrite (R _ _ _ E1).
        rewrite run_connected by exact Hw1.
        pose proof (Hpass 1%nat ltac:(lia)) as P1. cbn [nth Upkeep.steps] in P1.
        destruct (exec rh (Some "/tmp") "sudo chmod 755 setup_node.sh") as [r2|] eqn:E2;
          [|discriminate P1]. rewrite (R _ _ _ E2).
        rewrite run_connected by exact Hw1. rewrite Em. reflexivity.
      * rewrite run_connected by exact Hw1.
        pose proof (Hpass 0%nat ltac:(lia)) as P0. cbn [nth Upkeep.steps] in P0.
        destruct (exec rh (Some "/tmp") (upload_command script)) as [r1|] eqn:E1;
          [|discriminate P0]. rewrite (R _ _ _ E1).
        rewrite run_connected by exact Hw1.
        pose proof (Hpass 1%nat ltac:(lia)) as P1. cbn [nth Upkeep.steps] in P1.
        destruct (exec rh (Some "/tmp") "sudo chmod 755 setup_node.sh") as [r2|] eqn:E2;
          [|discriminate P1]. rewrite (R _ _ _ E2).
        rewrite run_connected by exact Hw1.
        pose proof (Hpass 2%nat ltac:(lia)) as P2. cbn [nth Upkeep.steps] in P2.
        destruct (exec rh (Some "/tmp") "sudo bash ./setup_node.sh") as [r3|] eqn:E3;
          [|discriminate P2]. rewrite (R _ _ _ E3).
        rewrite run_connected by exact Hw1. rewrite Em. reflexivity.
    + intros Hpass.
      rewrite run_connected by exact Hw1.
      pose proof (Hpass 0%nat ltac:(lia)) as P0. cbn [nth Upkeep.steps] in P0.
      destruct (exec rh (Some "/tmp") (upload_command script)) as [r1|] eqn:E1;
        [|discriminate P0]. rewrite (R _ _ _ E1).
      rewrite run_connected by exact Hw1.
      pose proof (Hpass 1%nat ltac:(lia)) as P1. cbn [nth Upkeep.steps] in P1.
      destruct (exec rh (Some "/tmp") "sudo chmod 755 setup_node.sh") as [r2|] eqn:E2;
        [|discriminate P1]. rewrite (R _ _ _ E2).
      rewrite run_connected by exact Hw1.
      pose proof (Hpass 2%nat ltac:(lia)) as P2. cbn [nth Upkeep.steps] in P2.
      destruct (exec rh (Some "/tmp") "sudo bash ./setup_node.sh") as [r3|] eqn:E3;
        [|discriminate P2]. rewrite (R _ _ _ E3).
      rewrite run_connected by exact Hw1.
      pose proof (Hpass 3%nat ltac:(lia)) as P3. cbn [nth Upkeep.steps] in P3.
      destruct (exec rh (Some "/tmp") "sudo rm -f setup_node.sh") as [r4|] eqn:E4;
        [|discriminate P3]. reflexivity.
Qed.

Lemma failing_step_witness :
  labelled (fst (setup_marzban_node Scenarios.script_exits_100 Fixtures.with_certificate
                   (init "203.0.113.5" "p@ss", Fixtures.offline) 8443 8880)) = false /\
  fst (setup_marzban_node Scenarios.script_exits_100 Fixtures.with_certificate
         (init "203.0.113.5" "p@ss", Fixtures.offline) 8443 8880)
  = SetupFailed "Setup error: Encountered a bad command exit code!".
Proof.
  assert (R : raises_on_failure Scenarios.script_exits_100).
  { intros cwd cmd r. cbn.
    destruct (String.eqb cmd "sudo bash ./setup_node.sh"); [discriminate|].
    intros [= <-]. reflexivity. }
  destruct (failing_step_loses_its_label Scenarios.script_exits_100
              Fixtures.with_certificate
              "203.0.113.5" "p@ss" Fixtures.offline 8443 8880 R ltac:(reflexivity))
    as (Hl & _ & H).
  split; [exact Hl|].
  destruct (H ltac:(reflexivity) ltac:(reflexivity)) as [_ Hc].
  destruct (Hc Fixtures.plain_certificate ltac:(vm_compute; reflexivity)
              ltac:(vm_compute; discriminate)) as [Hk _].
  destruct (Hk 2%nat ltac:(lia)
              ltac:(intros j Hj; destruct j as [|[|j]]; [reflexivity | reflexivity | lia])
              ltac:(reflexivity)) as (m & Em & Hres).
  injection Em as <-. exact Hres.
Defined.

(** *** Closing the session *)

(** Past the connection test the [finally] clause closes the session,
    whatever the guarded block ended in. *)
Lemma session_closed_past_connect rh env self w service_port api_port :
  (connection self <> None \/ fst (connect rh (self, w)) = true) ->
  connected (snd (snd (setup_marzban_node rh env (self, w) service_port api_port)))
  = false.
Proof.
  unfold setup_marzban_node. cbn [fst].
  destruct (connection self) as [c|] eqn:Ec.
  - intros _. destruct (guarded rh env self w service_port api_port) as [r w1].
    reflexivity.
  - intros [H|H]; [congruence|].
    destruct (connect_true rh self w H) as (w1 & E & _). rewrite E.
    match goal with
    | |- context [guarded ?a ?b ?c ?d ?e ?f] => destruct (guarded a b c d e f) as [r w2]
    end.
    reflexivity.
Qed.

(** C8, the path the claim singles out.  The host accepts the session and
    the connection test comes back failed: the call returns "Failed to
    connect to server" with the session still established and no [close]
    in the trace. *)
Theorem session_left_open_when_test_fails :
  let r := setup_marzban_node Fixtures.failing Fixtures.with_certificate
             (init "203.0.113.5" "p@ss", Fixtures.offline) 8443 8880 in
  fst r = SetupFailed "Failed to connect to server" /\
  connected (snd (snd r)) = true /\
  trace (snd (snd r)) = [Opened; Ran None "echo 'Connection test'"].
Proof. vm_compute. repeat split. Qed.

(** The same on every host: a session that was established for a
    connection test that does not pass is never closed by the call. *)
Lemma early_return_skips_close rh env h pw w service_port api_port :
  connected w = false -> accepts_session rh = true ->
  fst (connect rh (init h pw, w)) = false ->
  let r := setup_marzban_node rh env (init h pw, w) service_port api_port in
  fst r = SetupFailed "Failed to connect to server" /\
  connected (snd (snd r)) = true /\
  trace (snd (snd r)) = trace w ++ [Opened; Ran None "echo 'Connection test'"].
Proof.
  intros Hw Hs. unfold setup_marzban_node. cbn [fst init connection].
  unfold connect, run. rewrite Hw, Hs.
  destruct (exec rh None "echo 'Connection test'") as [r|m]; cbn [fst].
  - intros H. rewrite H. cbn. rewrite <- app_assoc. repeat split.
  - intros _. cbn. rewrite <- app_assoc. repeat split.
Qed.

(** *** Geo lookup *)

(** C9.  [get_geo_ip] asks the primary provider first.  On a 429 it asks
    the fallback provider next and, when that answers 200 with [city] and
    [country] fields, returns them as "city (country)"; a fallback status
    other than 200, or a primary status other than 200 and 429, gives
    "Ghost". *)
Theorem geo_lookup_falls_back geo ip :
  let url1 := "https://ipapi.co/" +:+ ip +:+ "/json" in
  let url2 := "https://ipinfo.io/" +:+ ip +:+ "/json" in
  (exists rest, snd (get_geo_ip geo ip) = AskedIpapi url1 :: rest) /\
  (forall r1, ipapi geo url1 = Answer r1 -> status_code r1 = 429 ->
     snd (get_geo_ip geo ip) = [AskedIpapi url1; AskedIpinfo url2] /\
     forall r2, ipinfo geo url2 = Answer r2 ->
       (status_code r2 = 200 ->
        forall j city country,
          json r2 = Some j -> getitem j "city" = Some city ->
          getitem j "country" = Some country ->
          fst (get_geo_ip geo ip)
          = Returned (format city +:+ " (" +:+ format country +:+ ")")) /\
       (status_code r2 <> 200 -> fst (get_geo_ip geo ip) = Returned "Ghost")) /\
  (forall r1, ipapi geo url1 = Answer r1 ->
     status_code r1 <> 200 -> status_code r1 <> 429 ->
     get_geo_ip geo ip = (Returned "Ghost", [AskedIpapi url1])).
Proof.
  intros url1 url2. unfold get_geo_ip. fold url1 url2. split; [|split].
  - destruct (ipapi geo url1) as [r1|m]; [|eexists; reflexivity].
    destruct (status_code r1 =? 200); [eexists; reflexivity|].
    destruct (status_code r1 =? 429); [|eexists; reflexivity].
    destruct (ipinfo geo url2) as [r2|m]; [|eexists; reflexivity].
    destruct (status_code r2 =? 200); eexists; reflexivity.
  - intros r1 E1 S1. rewrite E1, S1.
    change (429 =? 200) with false. change (429 =? 429) with true. cbv iota.
    split.
    + destruct (ipinfo geo url2) as [r2|m]; [|reflexivity].
      destruct (status_code r2 =? 200); reflexivity.
    + intros r2 E2. rewrite E2. split.
      * intros S2 j city country J C K. rewrite S2. cbn [fst].
        change (200 =? 200) with true. cbv iota. cbn [fst].
        unfold city_and. rewrite J, C, K. reflexivity.
      * intros S2. apply Z.eqb_neq in S2. rewrite S2. reflexivity.
  - intros r1 E Hn200 Hn429. rewrite E.
    apply Z.eqb_neq in Hn200, Hn429. rewrite Hn200, Hn429. reflexivity.
Qed.

Lemma geo_lookup_witness :
  get_geo_ip Fixtures.throttled "203.0.113.5"
  = (Returned "Frankfurt am Main (DE)",
     [AskedIpapi "https://ipapi.co/203.0.113.5/json";
      AskedIpinfo "https://ipinfo.io/203.0.113.5/json"]).
Proof.
  destruct (geo_lookup_falls_back Fixtures.throttled "203.0.113.5") as (_ & H & _).
  destruct (H Fixtures.rate_limited ltac:(reflexivity) ltac:(reflexivity)) as [Hs Hf].
  destruct (Hf Fixtures.frankfurt ltac:(reflexivity)) as [Hok _].
  specialize (Hok ltac:(reflexivity) _ (PyStr "Frankfurt am Main") (PyStr "DE")
                ltac:(reflexivity) ltac:(reflexivity) ltac:(reflexivity)).
  rewrite (surjective_pairing (get_geo_ip Fixtures.throttled "203.0.113.5")).
  rewrite Hok, Hs. reflexivity.
Defined.

End ProvisionFacts.

(** ** The control-plane client *)

Module ClientFacts.
Import MarzbanNodeApi.

Lemma get_nodes_call depth srv st :
  get_nodes depth srv st = call nodes_request "Nodes retrieval failed: " depth srv st.
Proof.
  revert st; induction depth as [|d IH]; intros [self wire]; [reflexivity|].
  cbn [get_nodes call]. destruct (send srv wire (nodes_request self)) as [[r|m] w1]; [|reflexivity].
  destruct (status_code r =? 200); [reflexivity|].
  destruct (status_code r =? 401); [|reflexivity].
  destruct (_auth srv (self, w1)) as [[u|m|] st2]; auto.
Qed.

Lemma create_node_call depth srv st name address port api_port new_host :
  create_node depth srv st name address port api_port new_host
  = call (fun self => create_request self name address port api_port new_host)
      "Node creation failed: " depth srv st.
Proof.
  revert st; induction depth as [|d IH]; intros [self wire]; [reflexivity|].
  cbn [create_node call].
  destruct (send srv wire _) as [[r|m] w1]; [|reflexivity].
  destruct (status_code r =? 200); [reflexivity|].
  destruct (status_code r =? 401); [|reflexivity].
  destruct (_auth srv (self, w1)) as [[u|m|] st2]; auto.
Qed.

Lemma delete_node_call depth srv st node_id :
  delete_node depth srv st node_id
  = call (fun self => delete_request self node_id) "Node deletion failed: " depth srv st.
Proof.
  revert st; induction depth as [|d IH]; intros [self wire]; [reflexivity|].
  cbn [delete_node call].
  destruct (send srv wire _) as [[r|m] w1]; [|reflexivity].
  destruct (status_code r =? 200); [reflexivity|].
  destruct (status_code r =? 401); [|reflexivity].
  destruct (_auth srv (self, w1)) as [[u|m|] st2]; auto.
Qed.

Lemma nodes_operation : operation nodes_request.
Proof. intro; reflexivity. Qed.

Lemma create_operation name address port api_port new_host :
  operation (fun self => create_request self name address port api_port new_host).
Proof. intro; reflexivity. Qed.

Lemma delete_operation node_id : operation (fun self => delete_request self node_id).
Proof. intro; reflexivity. Qed.

Lemma auths_snoc wire rq rp :
  auths (wire ++ [(rq, rp)]) = (auths wire + (if is_auth rq then 1 else 0))%nat.
Proof.
  unfold auths. rewrite List.filter_app, List.length_app. cbn.
  destruct (is_auth rq); reflexivity.
Qed.

Lemma attempts_snoc wire rq rp :
  attempts (wire ++ [(rq, rp)]) = (attempts wire + (if is_auth rq then 0 else 1))%nat.
Proof.
  unfold attempts. rewrite List.filter_app, List.length_app. cbn.
  destruct (is_auth rq); reflexivity.
Qed.

Lemma auth_granted srv t self wire :
  grants srv t ->
  exists rp, _auth srv (self, wire)
             = (Returned tt, (set_token self t, wire ++ [(auth_request self, rp)])).
Proof.
  intros G. destruct (G wire (auth_request self) eq_refl) as (r & j & E & S200 & J & T).
  exists (Answer r). unfold _auth, send. rewrite E, S200. cbn. rewrite J, T. reflexivity.
Qed.

Lemma call_rejected_then_accepted mk label srv t v k :
  operation mk -> grants srv t -> rejects_before srv k -> accepts_at srv k v ->
  forall n depth self wire,
    (attempts wire + n = k)%nat -> (n < depth)%nat ->
    exists self' wire',
      call mk label depth srv (self, wire) = (Returned v, (self', wire')) /\
      auths wire' = (auths wire + n)%nat /\
      attempts wire' = (attempts wire + n + 1)%nat.
Proof.
  intros Op G R A. induction n as [|n IH]; intros depth self wire Hk Hd.
  - destruct depth as [|d]; [lia|]. cbn [call]. unfold send.
    destruct (A wire (mk self) (Op self)) as (r & E & S200 & J); [lia|].
    rewrite E, S200. cbn. unfold return_json. rewrite J.
    eexists _, _; split; [reflexivity|].
    rewrite auths_snoc, attempts_snoc, (Op self). lia.
  - destruct depth as [|d]; [lia|]. cbn [call]. unfold send.
    destruct (R wire (mk self) (Op self)) as (r & E & S401); [lia|].
    rewrite E, S401. cbn [fst snd]. change (401 =? 200) with false. change (401 =? 401) with true. cbv iota.
    destruct (auth_granted srv t self (wire ++ [(mk self, Answer r)]) G) as [rp Ea].
    rewrite Ea.
    destruct (IH d (set_token self t) ((wire ++ [(mk self, Answer r)]) ++ [(auth_request self, rp)]))
      as (self' & wire' & Ec & Ha & Ht).
    + rewrite !attempts_snoc, (Op self). cbn. lia.
    + lia.
    + exists self', wire'. split; [exact Ec|].
      rewrite Ha, Ht, !auths_snoc, !attempts_snoc, (Op self). cbn. lia.
Qed.


Lemma call_rejected_forever mk label srv t :
  operation mk -> grants srv t -> (forall k, rejects_before srv k) ->
  forall depth self wire,
    exists self' wire',
      call mk label depth srv (self, wire) = (DepthExhausted, (self', wire')) /\
      auths wire' = (auths wire + depth)%nat /\
      attempts wire' = (attempts wire + depth)%nat.
Proof.
  intros Op G R. induction depth as [|d IH]; intros self wire.
  - exists self, wire. cbn. repeat split; lia.
  - cbn [call]. unfold send.
    destruct (R (S (attempts wire)) wire (mk self) (Op self)) as (r & E & S401); [lia|].
    rewrite E, S401. cbn [fst snd]. change (401 =? 200) with false.
    change (401 =? 401) with true. cbv iota.
    destruct (auth_granted srv t self (wire ++ [(mk self, Answer r)]) G) as [rp Ea].
    rewrite Ea.
    destruct (IH (set_token self t) ((wire ++ [(mk self, Answer r)]) ++ [(auth_request self, rp)]))
      as (self' & wire' & Ec & Ha & Ht).
    exists self', wire'. split; [exact Ec|].
    rewrite Ha, Ht, !auths_snoc, !attempts_snoc, (Op self). cbn. lia.
Qed.

Lemma rejecting_grants n : grants (Fixtures.rejecting n) (PyStr "t").
Proof.
  intros wire rq Hrq. unfold Fixtures.rejecting. rewrite Hrq.
  exists Fixtures.granted, (PyDict [("access_token", PyStr "t")] "{}").
  repeat split; reflexivity.
Defined.

Lemma rejecting_rejects n : rejects_before (Fixtures.rejecting n) n.
Proof.
  intros wire rq Hrq Hlt. unfold Fixtures.rejecting. rewrite Hrq.
  apply Nat.ltb_lt in Hlt. rewrite Hlt.
  exists Fixtures.unauthorized. split; reflexivity.
Defined.

Lemma rejecting_accepts n : accepts_at (Fixtures.rejecting n) n (PyOther "[]").
Proof.
  intros wire rq Hrq Heq. unfold Fixtures.rejecting. rewrite Hrq, Heq, Nat.ltb_irrefl.
  exists Fixtures.listing. repeat split; reflexivity.
Defined.

(** *** The log only grows, and token requests stay in order *)

Lemma auth_wire srv self wire :
  exists rp self',
    snd (_auth srv (self, wire)) = (self', wire ++ [(auth_request self, rp)]) /\
    (self' = self \/ fst (_auth srv (self, wire)) = Returned tt).
Proof.
  unfold _auth, send. destruct (srv wire (auth_request self)) as [r|m] eqn:E.
  - destruct (status_code r =? 200).
    + destruct (json r) as [j|]; [destruct (getitem j "access_token")|];
        eexists _, _; split; eauto.
    + eexists _, _; split; eauto.
  - eexists _, _; split; eauto.
Qed.

Lemma last_or_snoc prev wire e : last_or prev (wire ++ [e]) = Some e.
Proof. revert prev; induction wire as [|x w IH]; intro prev; cbn; auto. Qed.

Lemma reactive_snoc prev wire e :
  reactive prev (wire ++ [e]) = reactive prev wire && follows (last_or prev wire) e.
Proof.
  revert prev; induction wire as [|x w IH]; intro prev; cbn.
  - now rewrite andb_true_r.
  - rewrite IH. now rewrite andb_assoc.
Qed.

Lemma call_reactive mk label srv :
  operation mk ->
  forall depth self wire,
    reactive None wire = true ->
    reactive None (snd (snd (call mk label depth srv (self, wire)))) = true.
Proof.
  intros Op. induction depth as [|d IH]; intros self wire Hw; [exact Hw|].
  cbn [call]. unfold send.
  assert (H1 : reactive None (wire ++ [(mk self, srv wire (mk self))]) = true).
  { rewrite reactive_snoc, Hw. unfold follows. cbn [fst]. now rewrite (Op self). }
  destruct (srv wire (mk self)) as [r|m] eqn:E; [|exact H1].
  destruct (status_code r =? 200) eqn:S200.
  { unfold return_json. destruct (json r); exact H1. }
  destruct (status_code r =? 401) eqn:S401; [|exact H1].
  destruct (auth_wire srv self (wire ++ [(mk self, Answer r)])) as (rp & self' & Ew & _).
  destruct (_auth srv (self, wire ++ [(mk self, Answer r)])) as [[u|m|] st2] eqn:Ea;
    cbn [snd] in Ew; subst st2.
  - apply IH. rewrite reactive_snoc, H1, last_or_snoc. unfold follows. cbn.
    now rewrite (Op self), S401.
  - cbn [snd]. rewrite reactive_snoc, H1, last_or_snoc. unfold follows. cbn.
    now rewrite (Op self), S401.
  - cbn [snd]. rewrite reactive_snoc, H1, last_or_snoc. unfold follows. cbn.
    now rewrite (Op self), S401.
Qed.

Lemma call_extends mk label srv :
  forall depth self wire,
    exists ext, snd (snd (call mk label depth srv (self, wire))) = wire ++ ext.
Proof.
  induction depth as [|d IH]; intros self wire.
  - exists []. cbn. now rewrite app_nil_r.
  - cbn [call]. unfold send.
    destruct (srv wire (mk self)) as [r|m] eqn:E; [|eexists; reflexivity].
    destruct (status_code r =? 200).
    { unfold return_json. destruct (json r); eexists; reflexivity. }
    destruct (status_code r =? 401); [|eexists; reflexivity].
    destruct (auth_wire srv self (wire ++ [(mk self, Answer r)])) as (rp & self' & Ew & _).
    destruct (_auth srv (self, wire ++ [(mk self, Answer r)])) as [[u|m|] st2] eqn:Ea;
      cbn [snd] in Ew; subst st2.
    + destruct (IH self' ((wire ++ [(mk self, Answer r)]) ++ [(auth_request self, rp)])) as [ext Hext].
      rewrite Hext. rewrite <- !app_assoc. eexists; reflexivity.
    + cbn [snd]. rewrite <- app_assoc. eexists; reflexivity.
    + cbn [snd]. rewrite <- app_assoc. eexists; reflexivity.
Qed.

Lemma call_first mk label srv depth self :
  exists rest,
    snd (snd (call mk label (S depth) srv (self, []))) = (mk self, srv [] (mk self)) :: rest.
Proof.
  cbn [call]. unfold send.
  destruct (srv [] (mk self)) as [r|m] eqn:E; [|eexists; reflexivity].
  destruct (status_code r =? 200).
  { unfold return_json. destruct (json r); eexists; reflexivity. }
  destruct (status_code r =? 401); [|eexists; reflexivity].
  destruct (_auth srv _) as [[u|m|] st2] eqn:Ea.
  all: match type of Ea with
       | _auth _ (_, ?w) = _ => destruct (auth_wire srv self w) as (rp & self' & Ew & _)
       end; rewrite Ea in Ew; cbn [snd] in Ew; subst st2.
  - match goal with
    | |- context [call mk label depth srv (self', ?w)] =>
        destruct (call_extends mk label srv depth self' w) as [ext' Hext]; rewrite Hext
    end.
    eexists; reflexivity.
  - eexists; reflexivity.
  - eexists; reflexivity.
Qed.

Lemma call_auths_mono mk label srv :
  forall depth self wire,
    (auths wire <= auths (snd (snd (call mk label depth srv (self, wire)))))%nat.
Proof.
  intros depth self wire. destruct (call_extends mk label srv depth self wire) as [ext E].
  rewrite E. unfold auths. rewrite List.filter_app, List.length_app.
  apply Nat.le_add_r.
Qed.

(** Without a token request in between, the client object is unchanged. *)
Lemma call_token_kept mk label srv :
  operation mk ->
  forall depth self wire,
    auths (snd (snd (call mk label depth srv (self, wire)))) = auths wire ->
    fst (snd (call mk label depth srv (self, wire))) = self.
Proof.
  intros Op. destruct depth as [|d]; intros self wire; [reflexivity|].
  cbn [call]. unfold send.
  destruct (srv wire (mk self)) as [r|m] eqn:E; [|reflexivity].
  destruct (status_code r =? 200).
  { unfold return_json. destruct (json r); reflexivity. }
  destruct (status_code r =? 401); [|reflexivity].
  destruct (auth_wire srv self (wire ++ [(mk self, Answer r)])) as (rp & self' & Ew & _).
  intros H. exfalso.
  assert (M : (auths ((wire ++ [(mk self, Answer r)]) ++ [(auth_request self, rp)])
               <= auths wire)%nat).
  { rewrite <- H. clear H.
    destruct (_auth srv (self, wire ++ [(mk self, Answer r)])) as [[u|m|] st2] eqn:Ea.
    all: cbn [snd] in Ew; subst st2; cbn [snd]; try lia.
    apply call_auths_mono. }
  rewrite !auths_snoc, (Op self) in M. cbn in M. lia.
Qed.


(** *** Re-authentication *)

(** C1 (as the code has it).  On a 401 answer each of [get_nodes],
    [create_node] and [delete_node] authenticates and calls itself again,
    and does so for every further 401: when the token endpoint grants a
    token and the server rejects the first [n] attempts of the call and
    accepts the next one, the call performs exactly [n] authentications and
    [n + 1] attempts and returns the accepted body, whatever [n] is (the
    recursion depth permitting). *)
Theorem reauth_repeats_on_every_401
  srv t v n depth self wire name address port api_port new_host node_id :
  grants srv t ->
  rejects_before srv (attempts wire + n) ->
  accepts_at srv (attempts wire + n) v ->
  (n < depth)%nat ->
  let counted (res : outcome pyval * state) :=
    fst res = Returned v /\
    auths (snd (snd res)) = (auths wire + n)%nat /\
    attempts (snd (snd res)) = (attempts wire + n + 1)%nat in
  counted (get_nodes depth srv (self, wire)) /\
  counted (create_node depth srv (self, wire) name address port api_port new_host) /\
  counted (delete_node depth srv (self, wire) node_id).
Proof.
  intros G R A Hd counted. subst counted. cbv beta.
  rewrite get_nodes_call, create_node_call, delete_node_call.
  repeat split.
  all: match goal with
       | |- context [call ?mk ?label _ _ _] =>
           destruct (call_rejected_then_accepted mk label srv t v (attempts wire + n)
                       ltac:(intro; reflexivity) G R A n depth self wire eq_refl Hd)
             as (self' & wire' & E & Ha & Ht); rewrite E; cbn [fst snd];
             first [reflexivity | assumption]
       end.
Qed.

Lemma reauth_repeats_witness :
  fst (get_nodes 5 (Fixtures.rejecting 2) Fixtures.fresh) = Returned (PyOther "[]") /\
  auths (snd (snd (get_nodes 5 (Fixtures.rejecting 2) Fixtures.fresh))) = 2%nat /\
  attempts (snd (snd (get_nodes 5 (Fixtures.rejecting 2) Fixtures.fresh))) = 3%nat.
Proof.
  exact (proj1 (reauth_repeats_on_every_401
                  (Fixtures.rejecting 2) (PyStr "t") (PyOther "[]") 2 5
                  (fst Fixtures.fresh) [] "Ghost" "203.0.113.5" 8443 8880 true "7"
                  (rejecting_grants 2) (rejecting_rejects 2) (rejecting_accepts 2)
                  ltac:(lia))).
Defined.

(** The recursion has no cap of its own: against a server that answers 401
    to every attempt, a call of depth [depth] authenticates [depth] times
    and stops only because the depth is used up. *)
Lemma reauth_unbounded srv t depth self wire :
  grants srv t -> (forall k, rejects_before srv k) ->
  fst (get_nodes depth srv (self, wire)) = DepthExhausted /\
  auths (snd (snd (get_nodes depth srv (self, wire)))) = (auths wire + depth)%nat.
Proof.
  intros G R. rewrite get_nodes_call.
  destruct (call_rejected_forever nodes_request "Nodes retrieval failed: " srv t
              nodes_operation G R depth self wire) as (self' & wire' & E & Ha & _).
  rewrite E. split; [reflexivity | exact Ha].
Qed.

(** C1 (as stated) fails: a server that rejects twice makes [get_nodes]
    authenticate twice and try three times. *)
Lemma reauth_not_bounded :
  ~ at_most_one_reauth (snd Fixtures.fresh)
      (snd (snd (get_nodes 5 (Fixtures.rejecting 2) Fixtures.fresh))).
Proof.
  unfold at_most_one_reauth. vm_compute. intros [H _]. lia.
Qed.

(** *** The token of a fresh client *)

(** C10.  A client just constructed holds the empty token; whichever
    operation is called first, the first request on the wire carries
    [Authorization: Bearer ] followed by nothing; in the whole log of that
    call a token request only ever comes directly after an operation request
    answered 401; and when the call made no token request the token is
    still empty afterwards. *)
Theorem token_only_acquired_on_401
  u p url srv depth name address port api_port new_host node_id :
  let self := init u p url in
  let lazily (rq : request) (res : outcome pyval * state) :=
    headers rq = [("Authorization", "Bearer ")] /\
    (exists rest, snd (snd res) = (rq, srv [] rq) :: rest) /\
    reactive None (snd (snd res)) = true /\
    (auths (snd (snd res)) = 0%nat -> token (fst (snd res)) = PyStr "") in
  token self = PyStr "" /\
  lazily (nodes_request self) (get_nodes (S depth) srv (self, [])) /\
  lazily (create_request self name address port api_port new_host)
         (create_node (S depth) srv (self, []) name address port api_port new_host) /\
  lazily (delete_request self node_id) (delete_node (S depth) srv (self, []) node_id).
Proof.
  intros self lazily. subst lazily. cbv beta.
  rewrite get_nodes_call, create_node_call, delete_node_call.
  split; [reflexivity|].
  repeat split; try reflexivity.
  all: match goal with
       | |- exists rest, snd (snd (call ?mk ?label _ _ _)) = _ =>
           exact (call_first mk label srv depth self)
       | |- reactive None (snd (snd (call ?mk ?label _ _ _))) = true =>
           apply call_reactive; [intro; reflexivity | reflexivity]
       | |- auths (snd (snd (call ?mk ?label ?d _ _))) = _ -> _ =>
           intro H0;
           rewrite (call_token_kept mk label srv ltac:(intro; reflexivity) d self [] H0);
           reflexivity
       end.
Qed.

Lemma token_only_acquired_witness :
  token (fst (snd (get_nodes 3 (Fixtures.rejecting 0) Fixtures.fresh))) = PyStr "".
Proof.
  destruct (token_only_acquired_on_401 "admin" "secret" "https://panel.example"
              (Fixtures.rejecting 0) 2 "Ghost" "203.0.113.5" 8443 8880 true "7")
    as (_ & (_ & _ & _ & H) & _).
  apply H. vm_compute. reflexivity.
Defined.

End ClientFacts.

(** ** The dialog *)

Module DialogFacts.
Import Bot.

(** Cutting a text into its characters loses nothing. *)
Lemma concat_chars s : String.concat "" (chars s) = s.
Proof.
  induction s as [|c rest IH]; [reflexivity|].
  cbn [chars]. destruct (chars rest) as [|[|d more] later] eqn:E.
  - cbn in *. now subst.
  - cbn in *. destruct later; cbn in *; now subst.
  - destruct (continues d); cbn in *; destruct later; cbn in *; now subst.
Qed.

(** [int] on the texts it is spelled out for does not look at the peers. *)
Lemma int_plain E s : plain s = true -> int E s = decimal s.
Proof. intros H. unfold int. now rewrite H. Qed.

Lemma localhost_literal_spec ip :
  is_localhost_literal ip = true <-> ip = "127.0.0.1" \/ ip = "localhost" \/ ip = "::1".
Proof.
  unfold is_localhost_literal. rewrite !orb_true_iff, !String.eqb_eq. tauto.
Qed.

(** C5 (as the code has it).  [process_ip] strips the text, as [str.strip]
    does, of the white space of Unicode at either end, and accepts it,
    storing it and asking for the password, exactly when
    [ipaddress.ip_address] parses it and it is none of the three literals
    127.0.0.1, localhost and ::1; in every other case the session and the
    world are left as they were and one message with the cancel keyboard is
    sent.  No other loopback or unspecified address is turned away. *)
Theorem process_ip_turns_away_three_literals E user_id ss w text :
  let ip := strip text in
  let r := process_ip E user_id ss w text in
  (ip_address E ip <> None ->
   ip <> "127.0.0.1" -> ip <> "localhost" -> ip <> "::1" ->
   accepted r /\ data (session_after r) !! "ip" = Some ip /\ world_after r = w) /\
  (ip_address E ip = None \/ ip = "127.0.0.1" \/ ip = "localhost" \/ ip = "::1" ->
   session_after r = ss /\ world_after r = w /\
   exists msg, did r = [Say msg cancel_keyboard]).
Proof.
  intros ip r. subst r. unfold process_ip. fold ip. unfold validate_ip_address. split.
  - intros Hp H1 H2 H3. destruct (ip_address E ip) as [a|]; [|congruence]. cbn [negb].
    destruct (is_localhost_literal ip) eqn:Hl.
    + apply localhost_literal_spec in Hl. tauto.
    + unfold accepted. cbn. repeat split. apply lookup_insert_eq.
  - intros H. destruct (ip_address E ip) as [a|] eqn:Hp; cbn [negb].
    + destruct H as [H|H]; [discriminate|].
      apply localhost_literal_spec in H. rewrite H. cbn. eauto.
    + cbn. eauto.
Qed.

Lemma process_ip_witness :
  accepted (process_ip Fixtures.lab 1 Fixtures.asked_host Fixtures.idle
              (Scenarios.nbsp +:+ "203.0.113.5 ")) /\
  session_after (process_ip Fixtures.lab 1 Fixtures.asked_host Fixtures.idle "127.0.0.1")
  = Fixtures.asked_host.
Proof.
  split.
  - apply (process_ip_turns_away_three_literals Fixtures.lab 1 Fixtures.asked_host
             Fixtures.idle (Scenarios.nbsp +:+ "203.0.113.5 "));
      vm_compute; discriminate.
  - apply (process_ip_turns_away_three_literals Fixtures.lab 1 Fixtures.asked_host
             Fixtures.idle "127.0.0.1").
    right. left. reflexivity.
Defined.

(** C5 (as stated) fails: 127.0.0.2 parses, is a loopback address, and is
    accepted. *)
Lemma other_loopback_accepted : ~ rejects_loopback Fixtures.lab.
Proof.
  intros H.
  specialize (H 1 Fixtures.asked_host Fixtures.idle "127.0.0.2" (IPv4Address 2130706434)
                ltac:(vm_compute; reflexivity) ltac:(vm_compute; reflexivity)).
  vm_compute in H. discriminate H.
Qed.

(** C6 (as the code has it).  ["8443:8880"] starts the setup with the ports
    8443 and 8880, and so does the default button; any text with exactly
    two colon-separated parts that [int] reads once they are stripped
    starts the setup with the two integers read, whatever their size or
    sign; any other text leaves the session and the world as they were and
    sends one message with the cancel keyboard, which holds for ["abc:123"]
    and ["8443"].  [int] is the built-in: spelled out on short ASCII text,
    taken from [int_beyond] elsewhere. *)
Theorem ports_manual_accepts_any_integers E user_id ss w :
  process_ports_manual E user_id ss w "8443:8880"
  = process_node_setup E user_id ss w 8443 8880 /\
  did (process_ports_selection E user_id ss w "ports_8443_8880")
  = CallbackAnswered :: did (process_node_setup E user_id ss w 8443 8880) /\
  (forall text first second a b,
      split ":" text = [first; second] ->
      int E (strip first) = Some a -> int E (strip second) = Some b ->
      process_ports_manual E user_id ss w text
      = process_node_setup E user_id ss w a b) /\
  (forall text,
      (length (split ":" text) <> 2%nat \/
       exists part, In part (split ":" text) /\ int E (strip part) = None) ->
      let r := process_ports_manual E user_id ss w text in
      escaped r = None /\ session_after r = ss /\ world_after r = w /\
      exists msg, did r = [Say msg cancel_keyboard]) /\
  (exists part, In part (split ":" "abc:123") /\ int E (strip part) = None) /\
  length (split ":" "8443") <> 2%nat.
Proof.
  split; [reflexivity|]. split; [reflexivity|]. split; [|split; [|split]].
  - intros text first second a b Hs Ha Hb.
    unfold process_ports_manual, parse_ports. now rewrite Hs, Ha, Hb.
  - intros text H r. subst r. unfold process_ports_manual.
    assert (P : exists e, parse_ports E text = inr e).
    { unfold parse_ports.
      destruct (split ":" text) as [|first [|second [|third rest]]] eqn:Hs;
        try (eexists; reflexivity).
      destruct H as [H|(part & Hin & Hp)]; [now cbn in H|].
      destruct (int E (strip first)) as [a|] eqn:Ha; [|eexists; reflexivity].
      destruct (int E (strip second)) as [b|] eqn:Hb; [|eexists; reflexivity].
      destruct Hin as [<-|[<-|[]]]; congruence. }
    destruct P as [e P]. rewrite P. cbn. eauto.
  - exists "abc". split; [left; reflexivity | reflexivity].
  - cbn. discriminate.
Qed.

Lemma ports_manual_witness :
  process_ports_manual Fixtures.lab 1 Fixtures.asked_ports Fixtures.idle
    (" 8_443 :+8880" +:+ Scenarios.nbsp)
  = process_node_setup Fixtures.lab 1 Fixtures.asked_ports Fixtures.idle 8443 8880 /\
  session_after (process_ports_manual Fixtures.lab 1 Fixtures.asked_ports Fixtures.idle
                   "8443:88:80")
  = Fixtures.asked_ports.
Proof.
  destruct (ports_manual_accepts_any_integers Fixtures.lab 1 Fixtures.asked_ports
              Fixtures.idle) as (_ & _ & Hok & Hbad & _).
  split.
  - exact (Hok (" 8_443 :+8880" +:+ Scenarios.nbsp) " 8_443 " ("+8880" +:+ Scenarios.nbsp)
             8443 8880 ltac:(reflexivity) ltac:(reflexivity) ltac:(reflexivity)).
  - exact (proj1 (proj2 (Hbad "8443:88:80" ltac:(left; vm_compute; lia)))).
Defined.

(** C6 (as stated) fails in its last part: ["99999:-1"] is accepted with
    the pair (99999, -1), which is no pair of TCP ports. *)
Lemma ports_out_of_range_accepted : ~ ports_in_range Fixtures.lab.
Proof.
  intros H. specialize (H "99999:-1" (99999, -1) ltac:(reflexivity)).
  destruct H as [[_ H] _]. cbn in H. lia.
Qed.

(** C7.  When [setup_marzban_node] returns a failure with the error [e],
    [process_node_setup] edits the progress message to the failure text
    with [e] in it unchanged, leaves the client [marzban_api] and its wire
    log untouched (no request is sent, [create_node] is not reached), asks
    no geo provider, and ends with the session cleared: no state, no
    data. *)
Theorem failed_setup_ends_dialog
  E user_id ss w service_port api_port ip password error :
  data ss !! "ip" = Some ip ->
  data ss !! "password" = Some password ->
  fst (Utils.setup_marzban_node (node_host E) (environ E)
         (Utils.init ip password, site w) service_port api_port)
  = Utils.SetupFailed error ->
  let r := process_node_setup E user_id ss w service_port api_port in
  escaped r = None /\
  In (Edit ("❌ Server setup failed: " +:+ error)) (did r) /\
  marzban_api (world_after r) = marzban_api w /\
  (forall what, ~ In (Asked what) (did r)) /\
  fsm_state (session_after r) = None /\
  data (session_after r) = ∅.
Proof.
  intros Hip Hpw Hres r. subst r. unfold process_node_setup. rewrite Hip, Hpw.
  destruct (Utils.setup_marzban_node _ _ _ _ _) as [res [self site1]].
  cbn [fst] in Hres. subst res. cbn [escaped did world_after session_after marzban_api].
  repeat split.
  - apply in_or_app. right. right. left. reflexivity.
  - intros what Hin. unfold log_admin_action in Hin.
    repeat (apply in_app_or in Hin as [Hin|Hin]); cbn in Hin;
      repeat (destruct Hin as [Hin|Hin]; [discriminate Hin|]); exact Hin.
Qed.

Lemma failed_setup_witness :
  In (Edit ("❌ Server setup failed: " +:+ "Failed to connect to server"))
     (did (process_node_setup Fixtures.unreachable 1 Fixtures.asked_ports Fixtures.idle
             8443 8880)) /\
  marzban_api (world_after (process_node_setup Fixtures.unreachable 1 Fixtures.asked_ports
                              Fixtures.idle 8443 8880))
  = Fixtures.fresh.
Proof.
  destruct (failed_setup_ends_dialog Fixtures.unreachable 1 Fixtures.asked_ports
              Fixtures.idle 8443 8880 "203.0.113.5" "p@ss" "Failed to connect to server"
              ltac:(vm_compute; reflexivity) ltac:(vm_compute; reflexivity)
              ltac:(vm_compute; reflexivity))
    as (_ & Hedit & Hapi & _).
  split; [exact Hedit | exact Hapi].
Defined.

End DialogFacts.

(** ** More on the control-plane client *)

Module ClientMore.
Import MarzbanNodeApi ClientFacts.

Lemma call_other_status mk label srv depth self wire r :
  srv wire (mk self) = Answer r ->
  status_code r <> 200 -> status_code r <> 401 ->
  call mk label (S depth) srv (self, wire)
  = (Raised (label +:+ text r), (self, wire ++ [(mk self, Answer r)])).
Proof.
  intros E H200 H401. cbn [call]. unfold send. rewrite E.
  apply Z.eqb_neq in H200, H401. now rewrite H200, H401.
Qed.

(** X1.  An answer other than 200 and 401 ends the call at once: the
    operation raises its own label followed by the body of the response,
    after exactly one request, without asking for a token and with the
    client unchanged. *)
Theorem other_status_raises_after_one_request
  srv depth self wire r name address port api_port new_host node_id :
  (forall rq, is_auth rq = false -> srv wire rq = Answer r) ->
  status_code r <> 200 -> status_code r <> 401 ->
  get_nodes (S depth) srv (self, wire)
  = (Raised ("Nodes retrieval failed: " +:+ text r),
     (self, wire ++ [(nodes_request self, Answer r)])) /\
  create_node (S depth) srv (self, wire) name address port api_port new_host
  = (Raised ("Node creation failed: " +:+ text r),
     (self, wire ++ [(create_request self name address port api_port new_host, Answer r)])) /\
  delete_node (S depth) srv (self, wire) node_id
  = (Raised ("Node deletion failed: " +:+ text r),
     (self, wire ++ [(delete_request self node_id, Answer r)])).
Proof.
  intros Hs H200 H401.
  rewrite get_nodes_call, create_node_call, delete_node_call.
  repeat split; apply call_other_status; auto.
Qed.

Lemma other_status_witness :
  fst (get_nodes 4 Scenarios.erroring Fixtures.fresh)
  = Raised "Nodes retrieval failed: Internal Server Error".
Proof.
  destruct (other_status_raises_after_one_request Scenarios.erroring 3
              (fst Fixtures.fresh) [] Scenarios.server_error "Ghost" "203.0.113.5"
              8443 8880 true "7" ltac:(reflexivity) ltac:(vm_compute; discriminate)
              ltac:(vm_compute; discriminate)) as [H _].
  change Fixtures.fresh with (fst Fixtures.fresh, @nil exchange).
  rewrite H. reflexivity.
Defined.

Lemma call_failed_auth mk label srv depth self wire r m :
  srv wire (mk self) = Answer r -> status_code r = 401 ->
  fst (_auth srv (self, wire ++ [(mk self, Answer r)])) = Raised m ->
  exists rp,
    call mk label (S depth) srv (self, wire)
    = (Raised m, (self, (wire ++ [(mk self, Answer r)]) ++ [(auth_request self, rp)])).
Proof.
  intros E S401 Ha. cbn [call]. unfold send. rewrite E, S401.
  change (401 =? 200) with false. change (401 =? 401) with true. cbv iota.
  destruct (auth_wire srv self (wire ++ [(mk self, Answer r)])) as (rp & self' & Ew & Hs).
  destruct (_auth srv (self, wire ++ [(mk self, Answer r)])) as [o st2].
  cbn [fst snd] in *. subst o st2.
  destruct Hs as [-> | Hs]; [|discriminate]. exists rp. reflexivity.
Qed.

(** X2.  When the token request after a 401 does not succeed, the error of
    [_auth] is the error of the operation: the operation is not tried
    again (the log grows by the rejected request and the token request
    only) and the client keeps the token it had. *)
Theorem failed_authentication_ends_call
  srv depth self wire r m name address port api_port new_host node_id :
  (forall rq, is_auth rq = false -> srv wire rq = Answer r) ->
  status_code r = 401 ->
  (forall rq, is_auth rq = false ->
     fst (_auth srv (self, wire ++ [(rq, Answer r)])) = Raised m) ->
  let ended (rq : request) (res : outcome pyval * state) :=
    exists rp, res = (Raised m, (self, (wire ++ [(rq, Answer r)])
                                        ++ [(auth_request self, rp)])) in
  ended (nodes_request self) (get_nodes (S depth) srv (self, wire)) /\
  ended (create_request self name address port api_port new_host)
    (create_node (S depth) srv (self, wire) name address port api_port new_host) /\
  ended (delete_request self node_id) (delete_node (S depth) srv (self, wire) node_id).
Proof.
  intros Hs S401 Ha ended. subst ended. cbv beta.
  rewrite get_nodes_call, create_node_call, delete_node_call.
  repeat split; apply call_failed_auth; auto.
Qed.

Lemma failed_authentication_witness :
  exists rp,
    get_nodes 4 Scenarios.locked_out Fixtures.fresh
    = (Raised "Authentication failed: Incorrect username or password",
       (fst Fixtures.fresh,
        ([] ++ [(nodes_request (fst Fixtures.fresh), Answer Fixtures.unauthorized)])
        ++ [(auth_request (fst Fixtures.fresh), rp)])).
Proof.
  exact (proj1 (failed_authentication_ends_call Scenarios.locked_out 3
                  (fst Fixtures.fresh) [] Fixtures.unauthorized
                  "Authentication failed: Incorrect username or password"
                  "Ghost" "203.0.113.5" 8443 8880 true "7"
                  ltac:(intros rq Hrq; unfold Scenarios.locked_out; rewrite Hrq;
                        reflexivity)
                  ltac:(reflexivity)
                  ltac:(intros rq Hrq; reflexivity))).
Defined.

Lemma call_first_from mk label srv depth self wire :
  exists rest,
    snd (snd (call mk label (S depth) srv (self, wire)))
    = wire ++ (mk self, srv wire (mk self)) :: rest.
Proof.
  cbn [call]. unfold send.
  destruct (srv wire (mk self)) as [r|m] eqn:E; [|eexists; reflexivity].
  destruct (status_code r =? 200).
  { unfold return_json. destruct (json r); eexists; reflexivity. }
  destruct (status_code r =? 401); [|eexists; reflexivity].
  destruct (_auth srv _) as [[u|m|] st2] eqn:Ea.
  all: match type of Ea with
       | _auth _ (_, ?w0) = _ => destruct (auth_wire srv self w0) as (rp & self' & Ew & _)
       end; rewrite Ea in Ew; cbn [snd] in Ew; subst st2.
  - match goal with
    | |- context [call mk label depth srv (self', ?w0)] =>
        destruct (call_extends mk label srv depth self' w0) as [ext' Hext]; rewrite Hext
    end.
    rewrite <- !app_assoc. eexists; reflexivity.
  - cbn [snd]. rewrite <- app_assoc. eexists; reflexivity.
  - cbn [snd]. rewrite <- app_assoc. eexists; reflexivity.
Qed.

Lemma call_retry mk label srv depth self wire r t :
  srv wire (mk self) = Answer r -> status_code r = 401 ->
  grants srv t ->
  exists a rest,
    snd (snd (call mk label (S (S depth)) srv (self, wire)))
    = wire ++ (mk self, Answer r) :: (auth_request self, a)
           :: (mk (set_token self t),
               srv ((wire ++ [(mk self, Answer r)]) ++ [(auth_request self, a)])
                   (mk (set_token self t))) :: rest.
Proof.
  intros E S401 G. cbn [call]. unfold send. rewrite E, S401.
  change (401 =? 200) with false. change (401 =? 401) with true. cbv iota.
  destruct (auth_granted srv t self (wire ++ [(mk self, Answer r)]) G) as [a Ea].
  rewrite Ea.
  destruct (call_first_from mk label srv depth (set_token self t)
              ((wire ++ [(mk self, Answer r)]) ++ [(auth_request self, a)])) as [rest Hr].
  exists a, rest. cbn [call] in Hr. unfold send in Hr. rewrite Hr.
  now rewrite <- !app_assoc.
Qed.

(** X3.  After a 401 and a granted token the operation is sent again as it
    was, except for the token: the third request of the call is the request
    of the operation built with the new token, so it has the same method,
    address and body as the first and carries [Authorization: Bearer]
    followed by the token just granted. *)
Theorem retry_repeats_request_with_new_token
  srv depth self wire r t name address port api_port new_host node_id :
  (forall rq, is_auth rq = false -> srv wire rq = Answer r) ->
  status_code r = 401 ->
  grants srv t ->
  let retried (mk : NodeSetup -> request) (res : outcome pyval * state) :=
    (exists a rp rest,
        snd (snd res)
        = wire ++ (mk self, Answer r) :: (auth_request self, a)
               :: (mk (set_token self t), rp) :: rest) /\
    meth (mk (set_token self t)) = meth (mk self) /\
    url (mk (set_token self t)) = url (mk self) /\
    body (mk (set_token self t)) = body (mk self) /\
    headers (mk (set_token self t)) = [("Authorization", "Bearer " +:+ format t)] in
  retried nodes_request (get_nodes (S (S depth)) srv (self, wire)) /\
  retried (fun c => create_request c name address port api_port new_host)
    (create_node (S (S depth)) srv (self, wire) name address port api_port new_host) /\
  retried (fun c => delete_request c node_id)
    (delete_node (S (S depth)) srv (self, wire) node_id).
Proof.
  intros Hs S401 G retried. subst retried. cbv beta.
  rewrite get_nodes_call, create_node_call, delete_node_call.
  repeat split; try reflexivity.
  all: match goal with
       | |- context [call ?mk ?label _ _ _] =>
           destruct (call_retry mk label srv depth self wire r t
                       ltac:(apply Hs; reflexivity) S401 G) as (a & rest & H);
           rewrite H; eauto
       end.
Qed.

Lemma retry_witness :
  exists a rp rest,
    snd (snd (delete_node 5 (Fixtures.rejecting 1) Fixtures.fresh "7"))
    = [] ++ (delete_request (fst Fixtures.fresh) "7", Answer Fixtures.unauthorized)
         :: (auth_request (fst Fixtures.fresh), a)
         :: (delete_request (set_token (fst Fixtures.fresh) (PyStr "t")) "7", rp) :: rest.
Proof.
  destruct (retry_repeats_request_with_new_token (Fixtures.rejecting 1) 3
              (fst Fixtures.fresh) [] Fixtures.unauthorized (PyStr "t")
              "Ghost" "203.0.113.5" 8443 8880 true "7"
              ltac:(intros rq Hrq; unfold Fixtures.rejecting; rewrite Hrq; reflexivity)
              ltac:(reflexivity) (rejecting_grants 1)) as (_ & _ & H & _).
  exact H.
Defined.

Lemma call_token_after mk label srv t v k :
  operation mk -> grants srv t -> rejects_before srv k -> accepts_at srv k v ->
  forall n depth self wire,
    (attempts wire + S n = k)%nat -> (S n < depth)%nat ->
    token (fst (snd (call mk label depth srv (self, wire)))) = t.
Proof.
  intros Op G R A. induction n as [|n IH]; intros depth self wire Hk Hd.
  - destruct depth as [|[|d]]; [lia|lia|]. cbn [call]. unfold send.
    destruct (R wire (mk self) (Op self)) as (r & E & S401); [lia|].
    rewrite E, S401. change (401 =? 200) with false. change (401 =? 401) with true.
    cbv iota.
    destruct (auth_granted srv t self (wire ++ [(mk self, Answer r)]) G) as [rp Ea].
    rewrite Ea.
    destruct (A ((wire ++ [(mk self, Answer r)]) ++ [(auth_request self, rp)])
                (mk (set_token self t)) (Op _)) as (r2 & E2 & S200 & J).
    { rewrite !attempts_snoc, (Op self). cbn. lia. }
    rewrite E2, S200. change (200 =? 200) with true. cbv iota.
    unfold return_json. rewrite J. reflexivity.
  - destruct depth as [|d]; [lia|]. cbn [call]. unfold send.
    destruct (R wire (mk self) (Op self)) as (r & E & S401); [lia|].
    rewrite E, S401. change (401 =? 200) with false. change (401 =? 401) with true.
    cbv iota.
    destruct (auth_granted srv t self (wire ++ [(mk self, Answer r)]) G) as [rp Ea].
    rewrite Ea. apply IH; [|lia].
    rewrite !attempts_snoc, (Op self). cbn. lia.
Qed.

(** X4.  A token is kept for later calls.  When a call of [get_nodes] was
    rejected at least once and then accepted, the client holds the granted
    token afterwards, and the first request of a following [delete_node] on
    the same client carries that token. *)
Theorem acquired_token_reused_by_next_call
  srv t v n depth depth' self wire node_id :
  grants srv t ->
  rejects_before srv (attempts wire + S n) ->
  accepts_at srv (attempts wire + S n) v ->
  (S n < depth)%nat ->
  let st1 := snd (get_nodes depth srv (self, wire)) in
  token (fst st1) = t /\
  exists rq rp rest,
    snd (snd (delete_node (S depth') srv st1 node_id)) = snd st1 ++ (rq, rp) :: rest /\
    meth rq = DELETE /\
    headers rq = [("Authorization", "Bearer " +:+ format t)].
Proof.
  intros G R A Hd st1. subst st1. rewrite get_nodes_call, delete_node_call.
  assert (T : token (fst (snd (call nodes_request "Nodes retrieval failed: " depth srv
                                 (self, wire)))) = t).
  { exact (call_token_after nodes_request _ srv t v _ nodes_operation G R A
             n depth self wire eq_refl Hd). }
  split; [exact T|].
  destruct (snd (call nodes_request "Nodes retrieval failed: " depth srv (self, wire)))
    as [self1 wire1]. cbn [fst snd] in *.
  destruct (call_first_from (fun c => delete_request c node_id) "Node deletion failed: "
              srv depth' self1 wire1) as [rest H].
  eexists _, _, rest. split; [exact H|]. split; [reflexivity|].
  cbn. unfold bearer. now rewrite T.
Qed.

Lemma acquired_token_witness :
  token (fst (snd (get_nodes 5 (Fixtures.rejecting 2) Fixtures.fresh))) = PyStr "t".
Proof.
  exact (proj1 (acquired_token_reused_by_next_call (Fixtures.rejecting 2) (PyStr "t")
                  (PyOther "[]") 1 5 0 (fst Fixtures.fresh) [] "7"
                  (rejecting_grants 2) (rejecting_rejects 2) (rejecting_accepts 2)
                  ltac:(lia))).
Defined.

End ClientMore.

(** ** More on provisioning *)

Module ProvisionMore.
Import Utils Upkeep TextFacts ProvisionFacts.

Lemma connect_fresh rh h pw w :
  connected w = false ->
  fst (connect rh (init h pw, w)) = true ->
  connect rh (init h pw, w)
  = (true,
     ({| host := h; password := pw;
         connection := Some {| conn_host := h; conn_user := "root"; conn_password := pw |} |},
      {| connected := true;
         trace := (trace w ++ [Opened]) ++ [Ran None "echo 'Connection test'"] |})).
Proof.
  intros Hw. unfold connect, run. rewrite Hw. cbn [init host password].
  destruct (accepts_session rh); [|cbn; discriminate].
  destruct (exec rh None "echo 'Connection test'") as [r|m]; cbn [fst]; [|discriminate].
  intros H. rewrite H. reflexivity.
Qed.

(** One step of the block: a command run on an established session. *)
Ltac run_step :=
  rewrite run_connected by reflexivity.

Ltac pass_step H j :=
  let P := fresh "P" in
  let r := fresh "r" in
  pose proof (H j ltac:(lia)) as P; cbn [nth steps] in P;
  match type of P with
  | passes ?o = true =>
      destruct o as [r|?]; cbn [passes] in P; [|discriminate P];
      apply negb_true_iff in P; rewrite P
  end.

(** X5.  The commands are run in order and the first one that does not
    pass is the last one run.  When one of the first three commands (write
    the script, chmod, run it) comes back failed or raises, no later
    command is run, in particular the script file is not removed from the
    host; the result is a failure, the local temporary file is removed and
    the session is closed. *)
Theorem first_failing_step_is_last_run rh env h pw w service_port api_port certificate k :
  connected w = false ->
  fst (connect rh (init h pw, w)) = true ->
  env !! "MARZBAN_NODE_CERT" = Some certificate ->
  String.eqb certificate "" = false ->
  let script := _generate_setup_script (init h pw) certificate service_port api_port in
  (k <= 2)%nat ->
  (forall j, (j < k)%nat ->
     passes (exec rh (Some "/tmp") (nth j (steps script) "")) = true) ->
  passes (exec rh (Some "/tmp") (nth k (steps script) "")) = false ->
  let r := setup_marzban_node rh env (init h pw, w) service_port api_port in
  success (fst r) = false /\
  connected (snd (snd r)) = false /\
  trace (snd (snd r))
  = trace w
    ++ [Opened; Ran None "echo 'Connection test'"; TempWritten script]
    ++ map (Ran (Some "/tmp")) (firstn (S k) (steps script))
    ++ [TempUnlinked; Closed].
Proof.
  intros Hw Hc He Hne script Hk Hpass Hfail r. subst r.
  unfold setup_marzban_node. cbn [fst init connection].
  rewrite (connect_fresh rh h pw w Hw Hc). cbn [connection]. unfold guarded.
  rewrite He, Hne.
  change (_generate_setup_script _ certificate service_port api_port) with script.
  clearbody script. unfold remote_steps.
  destruct k as [|[|[|k]]]; [| | |lia].
  - cbn [nth steps] in Hfail. run_step.
    destruct (exec rh (Some "/tmp") (upload_command script)) as [r1|m1];
      cbn [passes] in Hfail;
      [apply negb_false_iff in Hfail; rewrite Hfail|];
      cbn; rewrite <- !app_assoc; repeat split.
  - cbn [nth steps] in Hfail. run_step. pass_step Hpass 0%nat. run_step.
    destruct (exec rh (Some "/tmp") "sudo chmod 755 setup_node.sh") as [r2|m2];
      cbn [passes] in Hfail;
      [apply negb_false_iff in Hfail; rewrite Hfail|];
      cbn; rewrite <- !app_assoc; repeat split.
  - cbn [nth steps] in Hfail.
    run_step. pass_step Hpass 0%nat. run_step. pass_step Hpass 1%nat. run_step.
    destruct (exec rh (Some "/tmp") "sudo bash ./setup_node.sh") as [r3|m3];
      cbn [passes] in Hfail;
      [apply negb_false_iff in Hfail; rewrite Hfail|];
      cbn; rewrite <- !app_assoc; repeat split.
Qed.

Lemma first_failing_step_witness :
  trace (snd (snd (setup_marzban_node Scenarios.chmod_fails Fixtures.with_certificate
                     (init "203.0.113.5" "p@ss", Fixtures.offline) 8443 8880)))
  = trace Fixtures.offline
    ++ [Opened; Ran None "echo 'Connection test'";
        TempWritten (_generate_setup_script (init "203.0.113.5" "p@ss")
                       Fixtures.plain_certificate 8443 8880)]
    ++ map (Ran (Some "/tmp"))
         (firstn 2 (steps (_generate_setup_script (init "203.0.113.5" "p@ss")
                             Fixtures.plain_certificate 8443 8880)))
    ++ [TempUnlinked; Closed].
Proof.
  refine (proj2 (proj2 (first_failing_step_is_last_run Scenarios.chmod_fails
                          Fixtures.with_certificate "203.0.113.5" "p@ss" Fixtures.offline
                          8443 8880 Fixtures.plain_certificate 1
                          ltac:(reflexivity) ltac:(reflexivity)
                          ltac:(vm_compute; reflexivity) ltac:(reflexivity)
                          ltac:(lia) _ ltac:(reflexivity)))).
  intros j Hj. destruct j as [|j]; [reflexivity | lia].
Defined.

(** X6.  An exception in any of the four commands, the removal of the
    script included, is turned into the result "Setup error: " followed by
    its message; the commands after it are not run, the local temporary
    file is removed and the session is closed.  So a lost connection
    during the final clean-up reports a failed setup although the script
    has run. *)
Theorem raising_step_gives_setup_error
  rh env h pw w service_port api_port certificate k m :
  connected w = false ->
  fst (connect rh (init h pw, w)) = true ->
  env !! "MARZBAN_NODE_CERT" = Some certificate ->
  String.eqb certificate "" = false ->
  let script := _generate_setup_script (init h pw) certificate service_port api_port in
  (k <= 3)%nat ->
  (forall j, (j < k)%nat ->
     passes (exec rh (Some "/tmp") (nth j (steps script) "")) = true) ->
  exec rh (Some "/tmp") (nth k (steps script) "") = RunError m ->
  let r := setup_marzban_node rh env (init h pw, w) service_port api_port in
  fst r = SetupFailed ("Setup error: " +:+ m) /\
  connected (snd (snd r)) = false /\
  trace (snd (snd r))
  = trace w
    ++ [Opened; Ran None "echo 'Connection test'"; TempWritten script]
    ++ map (Ran (Some "/tmp")) (firstn (S k) (steps script))
    ++ [TempUnlinked; Closed].
Proof.
  intros Hw Hc He Hne script Hk Hpass Hraise r. subst r.
  unfold setup_marzban_node. cbn [fst init connection].
  rewrite (connect_fresh rh h pw w Hw Hc). cbn [connection]. unfold guarded.
  rewrite He, Hne.
  change (_generate_setup_script _ certificate service_port api_port) with script.
  clearbody script. unfold remote_steps.
  destruct k as [|[|[|[|k]]]]; [| | | |lia]; cbn [nth steps] in Hraise.
  - run_step. rewrite Hraise. cbn. rewrite <- !app_assoc. repeat split.
  - run_step. pass_step Hpass 0%nat. run_step. rewrite Hraise.
    cbn. rewrite <- !app_assoc. repeat split.
  - run_step. pass_step Hpass 0%nat. run_step. pass_step Hpass 1%nat. run_step.
    rewrite Hraise. cbn. rewrite <- !app_assoc. repeat split.
  - run_step. pass_step Hpass 0%nat. run_step. pass_step Hpass 1%nat.
    run_step. pass_step Hpass 2%nat. run_step.
    rewrite Hraise. cbn. rewrite <- !app_assoc. repeat split.
Qed.

Lemma raising_step_witness :
  fst (setup_marzban_node Scenarios.drops_at_cleanup Fixtures.with_certificate
         (init "203.0.113.5" "p@ss", Fixtures.offline) 8443 8880)
  = SetupFailed "Setup error: Connection reset by peer".
Proof.
  refine (proj1 (raising_step_gives_setup_error Scenarios.drops_at_cleanup
                   Fixtures.with_certificate "203.0.113.5" "p@ss" Fixtures.offline
                   8443 8880 Fixtures.plain_certificate 3 "Connection reset by peer"
                   ltac:(reflexivity) ltac:(reflexivity)
                   ltac:(vm_compute; reflexivity) ltac:(reflexivity)
                   ltac:(lia) _ ltac:(reflexivity))).
  intros j Hj. destruct j as [|[|[|j]]]; [reflexivity | reflexivity | reflexivity | lia].
Defined.


(** *** The local temporary file *)

Lemma written_app a b : written (a ++ b) = (written a + written b)%nat.
Proof. unfold written. now rewrite List.filter_app, List.length_app. Qed.

Lemma unlinked_app a b : unlinked (a ++ b) = (unlinked a + unlinked b)%nat.
Proof. unfold unlinked. now rewrite List.filter_app, List.length_app. Qed.

Lemma run_counts rh w cwd cmd :
  written (trace (snd (run rh w cwd cmd))) = written (trace w) /\
  unlinked (trace (snd (run rh w cwd cmd))) = unlinked (trace w).
Proof.
  unfold run. destruct (connected w); [|destruct (accepts_session rh)]; cbn [snd log trace];
    rewrite ?written_app, ?unlinked_app; cbn; lia.
Qed.

Ltac chase_run :=
  match goal with
  | |- context [run ?rh ?w ?c ?cmd] =>
      let H := fresh "H" in
      let r := fresh "r" in
      let w' := fresh "w" in
      pose proof (run_counts rh w c cmd) as H;
      destruct (run rh w c cmd) as [[r|?] w']; cbn [snd] in H;
      [destruct (failed r)|]
  end.

Lemma remote_steps_counts rh self w script service_port api_port :
  written (trace (snd (remote_steps rh self w script service_port api_port)))
  = written (trace w) /\
  unlinked (trace (snd (remote_steps rh self w script service_port api_port)))
  = unlinked (trace w).
Proof.
  unfold remote_steps.
  chase_run; cbn [snd]; try lia.
  chase_run; cbn [snd]; try lia.
  chase_run; cbn [snd]; try lia.
  match goal with
  | |- context [run ?rh ?w0 ?c ?cmd] =>
      let H := fresh "H" in
      pose proof (run_counts rh w0 c cmd) as H;
      destruct (run rh w0 c cmd) as [[?|?] ?]; cbn [snd] in *; lia
  end.
Qed.

(** With the local file operations succeeding, the call writes and
    unlinks the same number of files (one each, or none), whatever the
    host does. *)
Lemma writes_match_unlinks rh env st service_port api_port :
  let tr := trace (snd st) in
  let tr' := trace (snd (snd (setup_marzban_node rh env st service_port api_port))) in
  (written tr' + unlinked tr = unlinked tr' + written tr)%nat.
Proof.
  intros tr tr'. subst tr tr'. destruct st as [self w]. unfold setup_marzban_node.
  cbn [fst snd].
  assert (P : forall self1 w1,
             let r := guarded rh env self1 w1 service_port api_port in
             (written (trace (snd r)) + unlinked (trace w1)
              = unlinked (trace (snd r)) + written (trace w1))%nat).
  { intros self1 w1. unfold guarded.
    destruct (env !! "MARZBAN_NODE_CERT") as [c|]; [|cbn; lia].
    destruct (String.eqb c ""); [cbn; lia|].
    match goal with
    | |- context [remote_steps ?a ?b ?c0 ?d ?e ?f] =>
        pose proof (remote_steps_counts a b c0 d e f) as [Hw Hu];
        destruct (remote_steps a b c0 d e f) as [res w2]
    end.
    cbn [snd log trace] in *. rewrite written_app, unlinked_app in *.
    cbn in *. lia. }
  destruct (connection self) as [c|] eqn:Ec.
  - specialize (P self w). cbn zeta in P.
    destruct (guarded rh env self w service_port api_port) as [res w2].
    cbn [snd close trace] in *.
    rewrite written_app, unlinked_app. cbn. lia.
  - pose proof (run_counts rh w None "echo 'Connection test'") as [Hw Hu].
    unfold connect.
    destruct (run rh w None "echo 'Connection test'") as [[r|m] w1]; cbn [snd] in *.
    + destruct (negb (failed r)); cbn [snd]; [|lia].
      match goal with
      | |- context [guarded ?a ?b ?c0 ?d ?e ?f] =>
          specialize (P c0 d); cbn zeta in P; destruct (guarded a b c0 d e f) as [res w2]
      end.
      cbn [snd connection close trace] in *.
      rewrite written_app, unlinked_app. cbn. lia.
    + cbn [snd]. lia.
Qed.

Lemma guarded_on_sound d rh env self w service_port api_port :
  sound d ->
  guarded_on d rh env self w service_port api_port
  = guarded rh env self w service_port api_port.
Proof.
  intros (Hc & Hw & Hu). unfold guarded_on, guarded.
  destruct (env !! "MARZBAN_NODE_CERT") as [certificate|]; [|reflexivity].
  destruct (String.eqb certificate ""); [reflexivity|].
  rewrite Hc, Hw.
  destruct (remote_steps _ _ _ _ _ _) as [r w1]. now rewrite Hu.
Qed.

Lemma on_sound_disk d rh env st service_port api_port :
  sound d ->
  setup_marzban_node_on d rh env st service_port api_port
  = setup_marzban_node rh env st service_port api_port.
Proof.
  intros S. unfold setup_marzban_node_on, setup_marzban_node.
  destruct (connection (fst st)).
  - destruct st as [self w]. now rewrite guarded_on_sound.
  - destruct (connect rh st) as [ok [self w]]. destruct ok; [|reflexivity].
    now rewrite guarded_on_sound.
Qed.

(** X7.  The local temporary file.  On a disk where creating, writing and
    unlinking succeed, [setup_marzban_node] is the function modelled in
    [Utils] and unlinks as many files as it writes on every path.  When
    writing the script raises, the file made with [delete=False] stays on
    disk: the [write] sits before the inner [try], whose [finally] holds
    the only [os.unlink].  The call then returns "Setup error: " with the
    message, runs no command in /tmp and closes the session. *)
Theorem temporary_file_stays_when_write_raises d rh env h pw w service_port api_port :
  (sound d ->
   forall st,
     let r := setup_marzban_node_on d rh env st service_port api_port in
     r = setup_marzban_node rh env st service_port api_port /\
     (written (trace (snd (snd r))) + unlinked (trace (snd st))
      = unlinked (trace (snd (snd r))) + written (trace (snd st)))%nat) /\
  (forall certificate reached e,
     connected w = false -> accepts_session rh = true ->
     passes (exec rh None "echo 'Connection test'") = true ->
     env !! "MARZBAN_NODE_CERT" = Some certificate -> certificate <> "" ->
     create d = None ->
     write d (_generate_setup_script (init h pw) certificate service_port api_port)
     = (reached, Some e) ->
     let r := setup_marzban_node_on d rh env (init h pw, w) service_port api_port in
     fst r = SetupFailed ("Setup error: " +:+ e) /\
     connected (snd (snd r)) = false /\
     trace (snd (snd r))
     = trace w ++ [Opened; Ran None "echo 'Connection test'"; TempWritten reached; Closed]).
Proof.
  split.
  - intros S st r. subst r. rewrite on_sound_disk by exact S. split; [reflexivity|].
    apply writes_match_unlinks.
  - intros certificate reached e Hw Ha Hp He Hne Hc Hwr r. subst r.
    unfold setup_marzban_node_on. cbn [fst init connection]. unfold connect, run.
    rewrite Hw, Ha.
    destruct (exec rh None "echo 'Connection test'") as [r0|m0]; [|discriminate Hp].
    cbn [passes] in Hp. rewrite Hp. cbn [connection host password].
    unfold guarded_on. rewrite He. apply String.eqb_neq in Hne. rewrite Hne, Hc.
    change (_generate_setup_script _ certificate service_port api_port)
      with (_generate_setup_script (init h pw) certificate service_port api_port).
    rewrite Hwr. cbn. rewrite <- !app_assoc. repeat split.
Qed.

Lemma temporary_file_stays_witness :
  trace (snd (snd (setup_marzban_node_on Scenarios.full Fixtures.obliging
                     Fixtures.with_certificate
                     (init "203.0.113.5" "p@ss", Fixtures.offline) 8443 8880)))
  = [Opened; Ran None "echo 'Connection test'"; TempWritten ""; Closed].
Proof.
  exact (proj2 (proj2
           (proj2 (temporary_file_stays_when_write_raises Scenarios.full Fixtures.obliging
                     Fixtures.with_certificate "203.0.113.5" "p@ss" Fixtures.offline
                     8443 8880)
              Fixtures.plain_certificate "" "[Errno 28] No space left on device"
              ltac:(reflexivity) ltac:(reflexivity) ltac:(reflexivity)
              ltac:(vm_compute; reflexivity) ltac:(vm_compute; discriminate)
              ltac:(reflexivity) ltac:(reflexivity)))).
Defined.

(** *** The session *)

(** X8.  Once the connection test has passed, or when the manager already
    holds a connection, every way out of [setup_marzban_node] goes through
    the [finally] clause: the session is closed at return and closing it is
    the last thing done. *)
Theorem session_closed_last rh env self w service_port api_port :
  connection self <> None \/ fst (connect rh (self, w)) = true ->
  let w' := snd (snd (setup_marzban_node rh env (self, w) service_port api_port)) in
  connected w' = false /\ last (trace w') = Some Closed.
Proof.
  intros H w'. subst w'. unfold setup_marzban_node. cbn [fst].
  destruct (connection self) as [c|] eqn:Ec.
  - destruct (guarded rh env self w service_port api_port) as [r w1].
    cbn. split; [reflexivity | apply last_snoc].
  - destruct H as [H|H]; [congruence|].
    destruct (connect_true rh self w H) as (w1 & E & _). rewrite E.
    match goal with
    | |- context [guarded ?a ?b ?c ?d ?e ?f] => destruct (guarded a b c d e f) as [r w2]
    end.
    cbn. split; [reflexivity | apply last_snoc].
Qed.

Lemma session_closed_last_witness :
  last (trace (snd (snd (setup_marzban_node Fixtures.script_fails
                           Fixtures.with_certificate
                           (init "203.0.113.5" "p@ss", Fixtures.offline) 8443 8880))))
  = Some Closed.
Proof.
  exact (proj2 (session_closed_last Fixtures.script_fails Fixtures.with_certificate
                  (init "203.0.113.5" "p@ss") Fixtures.offline 8443 8880
                  (or_intror eq_refl))).
Defined.

(** X9.  Without a certificate in the environment (unset or empty) nothing
    is done on the host beyond the connection test: no temporary file is
    written, no command is run in [/tmp], and the session is closed. *)
Theorem missing_certificate_touches_nothing rh env h pw w service_port api_port :
  connected w = false ->
  fst (connect rh (init h pw, w)) = true ->
  env !! "MARZBAN_NODE_CERT" = None \/ env !! "MARZBAN_NODE_CERT" = Some "" ->
  let r := setup_marzban_node rh env (init h pw, w) service_port api_port in
  connected (snd (snd r)) = false /\
  trace (snd (snd r)) = trace w ++ [Opened; Ran None "echo 'Connection test'"; Closed].
Proof.
  intros Hw Hc He r. subst r. unfold setup_marzban_node. cbn [fst init connection].
  rewrite (connect_fresh rh h pw w Hw Hc). cbn [connection]. unfold guarded.
  destruct He as [He|He]; rewrite He; cbn; rewrite <- !app_assoc; repeat split.
Qed.

Lemma missing_certificate_witness :
  trace (snd (snd (setup_marzban_node Fixtures.obliging Scenarios.without_certificate
                     (init "203.0.113.5" "p@ss", Fixtures.offline) 8443 8880)))
  = trace Fixtures.offline ++ [Opened; Ran None "echo 'Connection test'"; Closed].
Proof.
  exact (proj2 (missing_certificate_touches_nothing Fixtures.obliging
                  Scenarios.without_certificate "203.0.113.5" "p@ss" Fixtures.offline
                  8443 8880 ltac:(reflexivity) ltac:(reflexivity)
                  ltac:(left; reflexivity))).
Defined.

(** X10.  [test_connection] never raises.  On a manager that was never
    connected it answers [False] without touching the host; and it answers
    [True] only when a connection object exists, the session is
    established afterwards and the test command came back not failed. *)
Theorem test_connection_safe rh self w :
  (connection self = None -> test_connection rh (self, w) = (false, (self, w))) /\
  (fst (test_connection rh (self, w)) = true ->
   connection self <> None /\
   connected (snd (snd (test_connection rh (self, w)))) = true /\
   passes (exec rh None "echo 'test'") = true).
Proof.
  unfold test_connection. split.
  - intros H. now rewrite H.
  - destruct (connection self) as [c|]; [|cbn; discriminate].
    unfold run. destruct (connected w) eqn:Ew.
    + destruct (exec rh None "echo 'test'") as [r|m]; cbn; [|discriminate].
      intros H. repeat split; [discriminate | exact Ew | exact H].
    + destruct (accepts_session rh); [|cbn; discriminate].
      destruct (exec rh None "echo 'test'") as [r|m]; cbn; [|discriminate].
      intros H. repeat split; [discriminate | exact H].
Qed.

Lemma test_connection_witness :
  test_connection Fixtures.obliging (init "203.0.113.5" "p@ss", Fixtures.offline)
  = (false, (init "203.0.113.5" "p@ss", Fixtures.offline)).
Proof.
  exact (proj1 (test_connection_safe Fixtures.obliging (init "203.0.113.5" "p@ss")
                  Fixtures.offline) eq_refl).
Defined.

(** *** Geo lookup *)

(** X11.  When the primary provider answers 200 with [city] and
    [country_name] fields, [get_geo_ip] returns "city (country_name)" and
    the fallback provider is not asked. *)
Theorem geo_primary_answer_used geo ip r1 j city country :
  ipapi geo ("https://ipapi.co/" +:+ ip +:+ "/json") = Answer r1 ->
  status_code r1 = 200 ->
  json r1 = Some j ->
  getitem j "city" = Some city ->
  getitem j "country_name" = Some country ->
  get_geo_ip geo ip
  = (Returned (format city +:+ " (" +:+ format country +:+ ")"),
     [AskedIpapi ("https://ipapi.co/" +:+ ip +:+ "/json")]).
Proof.
  intros E S J C K. unfold get_geo_ip. rewrite E, S.
  change (200 =? 200) with true. cbv iota. unfold city_and. now rewrite J, C, K.
Qed.

Lemma geo_primary_witness :
  get_geo_ip Scenarios.answering "203.0.113.5"
  = (Returned "Berlin (Germany)", [AskedIpapi "https://ipapi.co/203.0.113.5/json"]).
Proof.
  exact (geo_primary_answer_used Scenarios.answering "203.0.113.5" Scenarios.berlin
           _ (PyStr "Berlin") (PyStr "Germany")
           ltac:(reflexivity) ltac:(reflexivity) ltac:(reflexivity)
           ltac:(reflexivity) ltac:(reflexivity)).
Defined.

Lemma not_ghost s : s +:+ ")" <> "Ghost".
Proof.
  destruct s as [|c1 [|c2 [|c3 [|c4 [|c5 s]]]]];
    rewrite ?append_cons, ?append_nil; intros H; try discriminate H.
  injection H as _ _ _ _ _ H. destruct s; discriminate H.
Qed.

Lemma city_and_not_ghost r key : city_and r key <> Returned "Ghost".
Proof.
  unfold city_and. destruct (json r) as [j|]; [|discriminate].
  destruct (getitem j "city") as [c|]; [|discriminate].
  destruct (getitem j key) as [k|]; [|discriminate].
  intros H. injection H as H.
  apply (not_ghost (format c +:+ " (" +:+ format k)).
  now rewrite !append_assoc.
Qed.

(** X12.  "Ghost" is returned for failed statuses only: when [get_geo_ip]
    returns "Ghost", the primary provider answered with a status other than
    200, and either that status was not 429 or the fallback provider
    answered with a status other than 200.  A 200 answer never gives
    "Ghost": a body without the fields, or a request that cannot be sent,
    raises instead. *)
Theorem ghost_means_failed_status geo ip :
  fst (get_geo_ip geo ip) = Returned "Ghost" ->
  exists r1,
    ipapi geo ("https://ipapi.co/" +:+ ip +:+ "/json") = Answer r1 /\
    status_code r1 <> 200 /\
    (status_code r1 <> 429 \/
     exists r2,
       ipinfo geo ("https://ipinfo.io/" +:+ ip +:+ "/json") = Answer r2 /\
       status_code r2 <> 200).
Proof.
  unfold get_geo_ip.
  destruct (ipapi geo _) as [r1|m]; [|cbn; discriminate].
  destruct (status_code r1 =? 200) eqn:S1.
  { cbn [fst]. intros H. now destruct (city_and_not_ghost r1 "country_name"). }
  apply Z.eqb_neq in S1.
  destruct (status_code r1 =? 429) eqn:S2.
  - destruct (ipinfo geo _) as [r2|m]; [|cbn; discriminate].
    destruct (status_code r2 =? 200) eqn:S3.
    { cbn [fst]. intros H. now destruct (city_and_not_ghost r2 "country"). }
    apply Z.eqb_neq in S3. intros _. exists r1. repeat split; auto.
    right. exists r2. split; auto.
  - apply Z.eqb_neq in S2. intros _. exists r1. repeat split; auto.
Qed.

Lemma ghost_witness :
  exists r1,
    Utils.ipapi Scenarios.ghostly ("https://ipapi.co/" +:+ "203.0.113.5" +:+ "/json")
    = Answer r1 /\ status_code r1 <> 200.
Proof.
  destruct (ghost_means_failed_status Scenarios.ghostly "203.0.113.5"
              ltac:(reflexivity)) as (r1 & E & S & _).
  exists r1. split; assumption.
Defined.

End ProvisionMore.

(** ** More on the dialog *)

Module DialogMore.
Import Bot Dialog.

Lemma setup_clears E user_id ss w service_port api_port ip :
  data ss !! "ip" = Some ip ->
  escaped (process_node_setup E user_id ss w service_port api_port) = None /\
  session_after (process_node_setup E user_id ss w service_port api_port) = cleared.
Proof.
  intros Hip. unfold process_node_setup. rewrite Hip.
  destruct (data ss !! "password") as [pw|]; [|split; reflexivity].
  destruct (Utils.setup_marzban_node _ _ _ _ _) as [[error|msg h sp ap] [self site1]];
    [split; reflexivity|].
  destruct (Utils.get_geo_ip (geo E) ip) as [[name|e|] asked]; try (split; reflexivity).
  cbn [marzban_api].
  destruct (MarzbanNodeApi.create_node _ _ _ _ _ _ _ _) as [[v|e|] api1];
    split; reflexivity.
Qed.

Lemma default_button E user_id ss w :
  process_ports_selection E user_id ss w "ports_8443_8880"
  = {| escaped := escaped (process_node_setup E user_id ss w 8443 8880);
       session_after := session_after (process_node_setup E user_id ss w 8443 8880);
       world_after := world_after (process_node_setup E user_id ss w 8443 8880);
       did := CallbackAnswered :: did (process_node_setup E user_id ss w 8443 8880) |}.
Proof. reflexivity. Qed.

(** X14.  Without an address in the session the [KeyError] of
    [data['ip']] escapes [process_node_setup], which sits before its [try]:
    nothing is sent, the host and the panel are not contacted, and the
    session is not cleared.  The default-ports button reaches this with a
    session that never went through the address step: the callback is
    answered and the exception escapes. *)
Theorem missing_address_escapes E user_id ss w service_port api_port :
  data ss !! "ip" = None ->
  process_node_setup E user_id ss w service_port api_port
  = {| escaped := Some "'ip'"; session_after := ss; world_after := w; did := [] |} /\
  process_ports_selection E user_id ss w "ports_8443_8880"
  = {| escaped := Some "'ip'"; session_after := ss; world_after := w;
       did := [CallbackAnswered] |}.
Proof.
  intros Hip.
  assert (H : forall sp ap,
             process_node_setup E user_id ss w sp ap
             = {| escaped := Some "'ip'"; session_after := ss; world_after := w;
                  did := [] |}).
  { intros sp ap. unfold process_node_setup. now rewrite Hip. }
  split; [apply H|].
  rewrite default_button. now rewrite H.
Qed.

Lemma missing_address_witness :
  escaped (process_ports_selection Fixtures.lab 1 Fixtures.asked_host Fixtures.idle
             "ports_8443_8880") = Some "'ip'".
Proof.
  rewrite (proj2 (missing_address_escapes Fixtures.lab 1 Fixtures.asked_host
                    Fixtures.idle 8443 8880 ltac:(vm_compute; reflexivity))).
  reflexivity.
Defined.

(** X15.  With an address but no password in the session the [KeyError]
    is caught inside the [try]: the host is never contacted, nor the
    panel; the error is shown and the dialog ends with the session
    cleared. *)
Theorem missing_password_never_contacts_host
  E user_id ss w service_port api_port ip :
  data ss !! "ip" = Some ip ->
  data ss !! "password" = None ->
  let r := process_node_setup E user_id ss w service_port api_port in
  world_after r = w /\
  In (Edit ("❌ Error: " +:+ "'password'")) (did r) /\
  (forall h res, ~ In (Provisioned h res) (did r)) /\
  session_after r = cleared.
Proof.
  intros Hip Hpw r. subst r. unfold process_node_setup. rewrite Hip, Hpw.
  cbn. repeat split.
  - do 5 right. left. reflexivity.
  - intros h res Hin. unfold log_admin_action in Hin.
    repeat (destruct Hin as [Hin|Hin]; [discriminate Hin|]). exact Hin.
Qed.

Lemma missing_password_witness :
  world_after (process_node_setup Fixtures.lab 1 Scenarios.half_filled Fixtures.idle
                 8443 8880) = Fixtures.idle.
Proof.
  exact (proj1 (missing_password_never_contacts_host Fixtures.lab 1 Scenarios.half_filled
                  Fixtures.idle 8443 8880 "203.0.113.5"
                  ltac:(vm_compute; reflexivity) ltac:(vm_compute; reflexivity))).
Defined.

(** X16.  After a successful setup the node is registered with the values
    of the dialog: the first request sent to the panel is the
    [create_node] request whose body holds the name the geo lookup
    returned, the address of the session, the two ports as given, and
    [add_as_new_host] "true". *)
Theorem node_created_with_entered_values
  E user_id ss w service_port api_port ip password node_name msg h sp ap d :
  data ss !! "ip" = Some ip ->
  data ss !! "password" = Some password ->
  fst (Utils.setup_marzban_node (node_host E) (environ E)
         (Utils.init ip password, site w) service_port api_port)
  = Utils.SetupDone msg h sp ap ->
  fst (Utils.get_geo_ip (geo E) ip) = Returned node_name ->
  depth E = S d ->
  let r := process_node_setup E user_id ss w service_port api_port in
  exists rq rp rest,
    snd (marzban_api (world_after r)) = snd (marzban_api w) ++ (rq, rp) :: rest /\
    meth rq = POST /\
    url rq = MarzbanNodeApi.node_url (fst (marzban_api w)) /\
    body rq = JsonDump [("add_as_new_host", FStr "true");
                        ("address", FStr ip);
                        ("api_port", FInt api_port);
                        ("name", FStr node_name);
                        ("port", FInt service_port);
                        ("usage_coefficient", FInt 1)].
Proof.
  intros Hip Hpw Hres Hgeo Hd r. subst r. unfold process_node_setup. rewrite Hip, Hpw.
  destruct (Utils.setup_marzban_node _ _ _ _ _) as [res [self site1]].
  cbn [fst] in Hres. subst res.
  destruct (Utils.get_geo_ip (geo E) ip) as [named asked]. cbn [fst] in Hgeo. subst named.
  cbn [marzban_api]. rewrite Hd. destruct (marzban_api w) as [client wire].
  destruct (ClientMore.call_first_from
              (fun c => MarzbanNodeApi.create_request c node_name ip service_port api_port
                          true)
              "Node creation failed: " (panel E) d client wire) as [rest H].
  rewrite <- ClientFacts.create_node_call in H.
  destruct (MarzbanNodeApi.create_node (S d) (panel E) (client, wire) node_name ip
              service_port api_port true) as [[v|e|] [client1 wire1]];
    cbn [snd fst] in *; subst wire1;
    eexists _, _, rest; (split; [reflexivity|]); repeat split.
Qed.

Lemma node_created_witness :
  exists rq rp rest,
    snd (marzban_api (world_after (process_node_setup Fixtures.lab 1 Fixtures.asked_ports
                                     Fixtures.idle 8443 8880)))
    = snd (marzban_api Fixtures.idle) ++ (rq, rp) :: rest /\
    body rq = JsonDump [("add_as_new_host", FStr "true");
                        ("address", FStr "203.0.113.5");
                        ("api_port", FInt 8880);
                        ("name", FStr "Frankfurt am Main (DE)");
                        ("port", FInt 8443);
                        ("usage_coefficient", FInt 1)].
Proof.
  destruct (node_created_with_entered_values Fixtures.lab 1 Fixtures.asked_ports
              Fixtures.idle 8443 8880 "203.0.113.5" "p@ss" "Frankfurt am Main (DE)"
              "Node setup completed successfully! Available on port 8443"
              "203.0.113.5" 8443 8880 9
              ltac:(vm_compute; reflexivity) ltac:(vm_compute; reflexivity)
              ltac:(vm_compute; reflexivity) ltac:(vm_compute; reflexivity)
              ltac:(reflexivity)) as (rq & rp & rest & H & _ & _ & Hb).
  exists rq, rp, rest. split; assumption.
Defined.

(** X17.  When the geo lookup raises after a successful setup, the host
    stays provisioned but the node is not registered: no request is sent to
    the panel, the error is shown, and the dialog ends. *)
Theorem geo_failure_leaves_node_unregistered
  E user_id ss w service_port api_port ip password msg h sp ap e :
  data ss !! "ip" = Some ip ->
  data ss !! "password" = Some password ->
  fst (Utils.setup_marzban_node (node_host E) (environ E)
         (Utils.init ip password, site w) service_port api_port)
  = Utils.SetupDone msg h sp ap ->
  fst (Utils.get_geo_ip (geo E) ip) = Raised e ->
  let r := process_node_setup E user_id ss w service_port api_port in
  marzban_api (world_after r) = marzban_api w /\
  In (Provisioned ip (Utils.SetupDone msg h sp ap)) (did r) /\
  In (Edit ("❌ Error: " +:+ e)) (did r) /\
  session_after r = cleared.
Proof.
  intros Hip Hpw Hres Hgeo r. subst r. unfold process_node_setup. rewrite Hip, Hpw.
  destruct (Utils.setup_marzban_node _ _ _ _ _) as [res [self site1]].
  cbn [fst] in Hres. subst res.
  destruct (Utils.get_geo_ip (geo E) ip) as [named asked]. cbn [fst] in Hgeo. subst named.
  cbn [setup_error world_after marzban_api did session_after]. repeat split.
  - apply in_or_app. left. apply in_or_app. left. apply in_or_app. left.
    apply in_or_app. right. left. reflexivity.
  - apply in_or_app. right. do 2 right. left. reflexivity.
Qed.

Lemma geo_failure_witness :
  marzban_api (world_after (process_node_setup Scenarios.no_geo 1 Fixtures.asked_ports
                              Fixtures.idle 8443 8880))
  = marzban_api Fixtures.idle.
Proof.
  exact (proj1 (geo_failure_leaves_node_unregistered Scenarios.no_geo 1
                  Fixtures.asked_ports Fixtures.idle 8443 8880 "203.0.113.5" "p@ss"
                  "Node setup completed successfully! Available on port 8443"
                  "203.0.113.5" 8443 8880 "Name or service not known"
                  ltac:(vm_compute; reflexivity) ltac:(vm_compute; reflexivity)
                  ltac:(vm_compute; reflexivity) ltac:(vm_compute; reflexivity))).
Defined.

(** X18.  [process_password] turns away a text that is empty once
    stripped and leaves the session as it was.  Any other text is stored,
    stripped, under "password", the rest of the data is kept, and the
    dialog state is not changed by the handler: a second text sent before a
    port button is pressed replaces the first password. *)
Theorem password_stored_state_kept user_id ss w text text' :
  (strip text = "" ->
   session_after (process_password user_id ss w text) = ss) /\
  (strip text <> "" ->
   let s1 := session_after (process_password user_id ss w text) in
   fsm_state s1 = fsm_state ss /\
   data s1 !! "password" = Some (strip text) /\
   (forall k, k <> "password" -> data s1 !! k = data ss !! k) /\
   (strip text' <> "" ->
    session_after (process_password user_id s1 w text')
    = session_after (process_password user_id ss w text'))).
Proof.
  unfold process_password. split.
  - intros H. now rewrite H.
  - intros H. apply String.eqb_neq in H. rewrite H. cbn. repeat split.
    + apply lookup_insert_eq.
    + intros k Hk. now apply lookup_insert_ne.
    + intros H'. apply String.eqb_neq in H'. rewrite H'. cbn.
      unfold update_data. cbn. f_equal. apply insert_insert_eq.
Qed.

Lemma password_stored_witness :
  data (session_after (process_password 1 Scenarios.half_filled Fixtures.idle
                         (Scenarios.nbsp +:+ "p@ss ")))
    !! "password" = Some "p@ss" /\
  session_after (process_password 1 Scenarios.half_filled Fixtures.idle Scenarios.nbsp)
  = Scenarios.half_filled.
Proof.
  split.
  - exact (proj1 (proj2 (proj2 (password_stored_state_kept 1 Scenarios.half_filled
                                  Fixtures.idle (Scenarios.nbsp +:+ "p@ss ") "")
                           ltac:(vm_compute; discriminate)))).
  - exact (proj1 (password_stored_state_kept 1 Scenarios.half_filled Fixtures.idle
                    Scenarios.nbsp "")
             ltac:(reflexivity)).
Defined.

(** X19.  What [process_password] sends and logs depends on the password
    through its length only, counted in characters as [len] does: two
    passwords of the same length give the same messages and the same log
    line. *)
Theorem password_shown_by_length_only user_id ss w text text' :
  strip text <> "" -> strip text' <> "" ->
  len (strip text) = len (strip text') ->
  did (process_password user_id ss w text) = did (process_password user_id ss w text').
Proof.
  intros H H' Hl. unfold process_password.
  apply String.eqb_neq in H, H'. rewrite H, H'. cbn. now rewrite Hl.
Qed.

Lemma password_shown_witness :
  did (process_password 1 Scenarios.half_filled Fixtures.idle "hunter2")
  = did (process_password 1 Scenarios.half_filled Fixtures.idle
           ("pässw0r" +:+ Scenarios.nbsp)).
Proof.
  apply password_shown_by_length_only; vm_compute; try discriminate; reflexivity.
Defined.

(** X20.  The probe of port 22 is advisory: with the same parser, the
    session [process_ip] leaves does not depend on what the probe finds,
    and the only difference in what is sent is the warning. *)
Theorem port_probe_is_advisory E E' user_id ss w text :
  ip_address E (strip text) = ip_address E' (strip text) ->
  session_after (process_ip E user_id ss w text)
  = session_after (process_ip E' user_id ss w text) /\
  (port_open E (strip text) 22 = port_open E' (strip text) 22 ->
   did (process_ip E user_id ss w text) = did (process_ip E' user_id ss w text)).
Proof.
  intros H. unfold process_ip, validate_ip_address. rewrite H.
  destruct (ip_address E' (strip text)); cbn [negb]; [|split; reflexivity].
  destruct (is_localhost_literal (strip text)); [split; reflexivity|].
  split; [reflexivity|]. intros Hp. cbn [did]. now rewrite Hp.
Qed.

Lemma port_probe_witness :
  session_after (process_ip Fixtures.lab 1 Fixtures.asked_host Fixtures.idle "203.0.113.5")
  = session_after (process_ip Fixtures.unreachable 1 Fixtures.asked_host Fixtures.idle
                     "203.0.113.5").
Proof.
  exact (proj1 (port_probe_is_advisory Fixtures.lab Fixtures.unreachable 1
                  Fixtures.asked_host Fixtures.idle "203.0.113.5" ltac:(reflexivity))).
Defined.



(** X22.  A ports button left on screen does not provision anything once
    the dialog is over.  After a cancellation, and after a setup that ran
    to its end, the session holds no address, so pressing the default-ports
    button only answers the callback and fails on the missing address: the
    host and the panel are not contacted. *)
Theorem stale_button_never_provisions E user_id ss w service_port api_port :
  (let s := session_after (cancel_node_creation ss w) in
   let r := process_ports_selection E user_id s w "ports_8443_8880" in
   escaped r = Some "'ip'" /\ world_after r = w /\ did r = [CallbackAnswered]) /\
  (forall ip, data ss !! "ip" = Some ip ->
     let r1 := process_node_setup E user_id ss w service_port api_port in
     let r := process_ports_selection E user_id (session_after r1) (world_after r1)
                "ports_8443_8880" in
     escaped r = Some "'ip'" /\ world_after r = world_after r1 /\
     did r = [CallbackAnswered]).
Proof.
  assert (H : forall w0,
             process_ports_selection E user_id cleared w0 "ports_8443_8880"
             = {| escaped := Some "'ip'"; session_after := cleared; world_after := w0;
                  did := [CallbackAnswered] |}).
  { intros w0. rewrite default_button. unfold process_node_setup.
    change (data cleared !! "ip") with ((∅ : gmap string string) !! "ip").
    rewrite lookup_empty. reflexivity. }
  split.
  - change (session_after (cancel_node_creation ss w)) with cleared. cbv zeta.
    rewrite H. repeat split.
  - intros ip Hip r1 r. subst r r1.
    rewrite (proj2 (setup_clears E user_id ss w service_port api_port ip Hip)).
    rewrite H. repeat split.
Qed.

Lemma stale_button_witness :
  world_after
    (process_ports_selection Fixtures.lab 1
       (session_after (process_node_setup Fixtures.lab 1 Fixtures.asked_ports Fixtures.idle
                         8443 8880))
       (world_after (process_node_setup Fixtures.lab 1 Fixtures.asked_ports Fixtures.idle
                       8443 8880))
       "ports_8443_8880")
  = world_after (process_node_setup Fixtures.lab 1 Fixtures.asked_ports Fixtures.idle
                   8443 8880).
Proof.
  exact (proj1 (proj2 (proj2 (stale_button_never_provisions Fixtures.lab 1
                                Fixtures.asked_ports Fixtures.idle 8443 8880)
                         "203.0.113.5" ltac:(vm_compute; reflexivity)))).
Defined.

End DialogMore.
